(** * The universal URL router (assets/js/url-router.js)

    A shallow embedding of the script's environment detection, URL cleaner
    and link fixer, and the properties of them that the specification
    states.

    The browser objects the script reads and writes are explicit data:
    [window.location] is a record of strings, the document is the list of
    names of its [meta] elements and the list of its anchors in document
    order, and the navigations the script asks for are logged in the order
    they are issued. *)

From Stdlib Require Import Bool List ZArith Lia.
From Stdlib Require Import Strings.Ascii Strings.String.
Import ListNotations.

Local Open Scope string_scope.
Local Open Scope bool_scope.

(** ** JavaScript string methods

    A JavaScript string is a finite sequence of code units; [string] is the
    same with 8-bit units.  Every method below but [toLowerCase] is
    independent of the alphabet.  [toLowerCase] is only applied to
    [location.pathname], which the URL parser keeps in ASCII. *)
Module JsString.

(** [s.startsWith(p)] *)
Definition startsWith (s p : string) : bool := String.prefix p s.

(** [s.endsWith(suf)]: some tail of [s] is [suf]. *)
Fixpoint endsWith (s suf : string) : bool :=
  (s =? suf) ||
  match s with
  | EmptyString => false
  | String _ s' => endsWith s' suf
  end.

(** [s.includes(sub)]: [sub] starts at some position of [s]. *)
Fixpoint includes (s sub : string) : bool :=
  String.prefix sub s ||
  match s with
  | EmptyString => false
  | String _ s' => includes s' sub
  end.

(** A relative index of [slice], as the language resolves it against the
    length: negative indices count from the end, and both ends clamp. *)
Definition relativeIndex (len i : Z) : Z :=
  if (i <? 0)%Z then Z.max (len + i) 0 else Z.min i len.

(** [s.slice(start, stop)]; [stop = None] is the one-argument form. *)
Definition slice (s : string) (start : Z) (stop : option Z) : string :=
  let len := Z.of_nat (String.length s) in
  let from := relativeIndex len start in
  let to := match stop with
            | None => len
            | Some e => relativeIndex len e
            end in
  String.substring (Z.to_nat from) (Z.to_nat (Z.max (to - from) 0)) s.

(** [s.split(sep)] for a separator of one code unit, the only form the
    script uses ([path.split('/')]). *)
Fixpoint split (s : string) (sep : ascii) : list string :=
  match s with
  | EmptyString => [EmptyString]
  | String c s' =>
      if Ascii.eqb c sep then EmptyString :: split s' sep
      else match split s' sep with
           | [] => [String c EmptyString]
           | p :: ps => String c p :: ps
           end
  end.

Definition lowerChar (c : ascii) : ascii :=
  let n := nat_of_ascii c in
  if (65 <=? n)%nat && (n <=? 90)%nat then ascii_of_nat (n + 32) else c.

(** [s.toLowerCase()] *)
Fixpoint toLowerCase (s : string) : string :=
  match s with
  | EmptyString => EmptyString
  | String c s' => String (lowerChar c) (toLowerCase s')
  end.

(** [parts[i]]: [None] is [undefined]. *)
Definition index (parts : list string) (i : nat) : option string :=
  nth_error parts i.

(** [a !== ''] for an array element. *)
Definition notEmptyString (a : option string) : bool :=
  match a with
  | Some EmptyString => false
  | _ => true
  end.

(** The string an array element contributes to a [+] concatenation. *)
Definition toStr (a : option string) : string :=
  match a with
  | Some s => s
  | None => "undefined"
  end.

End JsString.

Import JsString.

(** ** The browser state the script works on *)

(** [window.location] *)
Record Location := mkLocation {
  hostname : string;
  pathname : string;
  search : string;
  hash : string
}.

(** The listeners the script can meet on an anchor: its own
    [LinkFixer.handleClick], and anyone else's. *)
Inductive Listener :=
| HandleClick
| OtherListener (id : nat).

Definition Listener_eqb (a b : Listener) : bool :=
  match a, b with
  | HandleClick, HandleClick => true
  | OtherListener i, OtherListener j => Nat.eqb i j
  | _, _ => false
  end.

(** An anchor element: the two attributes the script reads and writes
    ([None] is an absent attribute) and its click listeners. *)
Record Link := mkLink {
  href : option string;
  data_original_href : option string;
  click : list Listener
}.

(** [link.setAttribute('href', v)] *)
Definition set_href (l : Link) (v : string) : Link :=
  mkLink (Some v) (data_original_href l) (click l).

(** [link.setAttribute('data-original-href', v)] *)
Definition set_data_original_href (l : Link) (v : string) : Link :=
  mkLink (href l) (Some v) (click l).

(** [link.removeEventListener('click', f)] *)
Definition removeEventListener (l : Link) (f : Listener) : Link :=
  mkLink (href l) (data_original_href l)
         (filter (fun g => negb (Listener_eqb g f)) (click l)).

(** [link.addEventListener('click', f)]: a listener already registered is
    not registered again. *)
Definition addEventListener (l : Link) (f : Listener) : Link :=
  mkLink (href l) (data_original_href l)
         (if existsb (fun g => Listener_eqb g f) (click l) then click l
          else click l ++ [f]).

(** The document: the [name] of each of its [meta] elements, and the result
    of [document.querySelectorAll('a')]. *)
Record Document := mkDocument {
  metas : list string;
  anchors : list Link
}.

(** Truthiness of [document.querySelector('meta[name="n"]')]. *)
Definition hasMeta (d : Document) (n : string) : bool :=
  existsb (String.eqb n) (metas d).

(** A navigation the script asks the browser for. *)
Inductive Navigation :=
| Replace (url : string)   (* window.location.replace(url) *)
| Assign (url : string).   (* window.location.href = url *)

Record Window := mkWindow {
  location : Location;
  document : Document;
  navigations : list Navigation
}.

Inductive Platform :=
| Vercel | Netlify | GitHubPages | Local | Production | Unknown.

(** The strings [getPlatform] returns. *)
Definition platformName (p : Platform) : string :=
  match p with
  | Vercel => "Vercel"
  | Netlify => "Netlify"
  | GitHubPages => "GitHub Pages"
  | Local => "Local"
  | Production => "Production"
  | Unknown => "Unknown"
  end.

Definition Platform_eqb (p q : Platform) : bool :=
  platformName p =? platformName q.

(** The object [getContext] returns. *)
Record Context := mkContext {
  basePath : string;
  platform : Platform;
  ctx_hostname : string;
  fullPath : string;
  isLocal : bool
}.

(** ** 1. Environment detection *)
Module Environment.

Definition possiblePaths : list string := ["/Meatlovers/"; "/meatlovers/"].

(** [parts.length > 2 && parts[1] !== '' ? '/' + parts[1] + '/' : fall
    through], the test both the GitHub Pages and the local case make. *)
Definition firstSegment (path : string) : option string :=
  let parts := split path "/"%char in
  if (2 <? List.length parts)%nat && notEmptyString (index parts 1)
  then Some ("/" ++ toStr (index parts 1) ++ "/")
  else None.

(** Case 4 of [getBasePath]: [Some] is a [return], [None] falls through to
    case 5. *)
Definition localCase (hostname path : string) : option string :=
  if (hostname =? "localhost") || (hostname =? "127.0.0.1") then
    match find (fun basePath => startsWith path basePath) possiblePaths with
    | Some basePath => Some basePath
    | None => firstSegment path
    end
  else None.

Definition getBasePath (w : Window) : string :=
  let path := pathname (location w) in
  let hostname := hostname (location w) in
  if includes hostname "vercel.app" || hasMeta (document w) "vercel" then "/"
  else if includes hostname "netlify.app" || hasMeta (document w) "netlify"
  then "/"
  else if includes hostname "github.io" then
    match firstSegment path with
    | Some r => r
    | None => "/"
    end
  else
    match localCase hostname path with
    | Some r => r
    | None =>
        if (hostname =? "meatlovers.co.ke") ||
           (hostname =? "www.meatlovers.co.ke") ||
           negb (includes hostname "localhost")
        then "/"
        else "/"
    end.

Definition getPlatform (w : Window) : Platform :=
  let host := hostname (location w) in
  if includes host "vercel.app" then Vercel
  else if includes host "netlify.app" then Netlify
  else if includes host "github.io" then GitHubPages
  else if (host =? "localhost") || (host =? "127.0.0.1") then Local
  else if (host =? "meatlovers.co.ke") || (host =? "www.meatlovers.co.ke")
  then Production
  else Unknown.

Definition getContext (w : Window) : Context :=
  {| basePath := getBasePath w;
     platform := getPlatform w;
     ctx_hostname := hostname (location w);
     fullPath := pathname (location w);
     isLocal := Platform_eqb (getPlatform w) Local |}.

End Environment.

(** ** 2. URL cleaner *)
Module UrlCleaner.

(** [window.location.replace(url)] *)
Definition locationReplace (w : Window) (url : string) : Window :=
  mkWindow (location w) (document w) (navigations w ++ [Replace url]).

(** Returns the function's result and the window after it. *)
Definition cleanCurrentUrl (w : Window) : bool * Window :=
  let path := pathname (location w) in
  let platform := Environment.getPlatform w in
  if Platform_eqb platform Vercel || Platform_eqb platform Netlify then
    (false, w)
  else if endsWith (toLowerCase path) ".html" then
    let cleanPath := slice path 0 (Some (-5)%Z) in
    let newUrl := cleanPath ++ search (location w) ++ hash (location w) in
    if negb (newUrl =? pathname (location w)) then
      (true, locationReplace w newUrl)
    else (false, w)
  else (false, w).

End UrlCleaner.

(** ** 3. Link fixer *)
Module LinkFixer.

(** The test that guards the early [return] of the callback. *)
Definition skipped (href : option string) : bool :=
  match href with
  | None => true
  | Some href =>
      (href =? "") ||
      startsWith href "http" ||
      startsWith href "//" ||
      startsWith href "#" ||
      startsWith href "mailto:" ||
      startsWith href "tel:" ||
      startsWith href "javascript:"
  end.

(** The value written back to [href]. *)
Definition fixedHref (context : Context) (href : string) : string :=
  let fixedHref := href in
  let fixedHref :=
    if endsWith fixedHref ".html" then slice fixedHref 0 (Some (-5)%Z)
    else fixedHref in
  if startsWith fixedHref "/" then
    if Platform_eqb (platform context) Local && negb (basePath context =? "/")
    then basePath context ++ slice fixedHref 1 None
    else fixedHref
  else fixedHref.

(** The callback of [links.forEach]. *)
Definition fixLink (context : Context) (link : Link) : Link :=
  match href link with
  | None => link
  | Some h =>
      if skipped (Some h) then link
      else
        let link := set_data_original_href link h in
        let link := set_href link (fixedHref context h) in
        if negb (Platform_eqb (platform context) Vercel) &&
           negb (Platform_eqb (platform context) Netlify)
        then addEventListener (removeEventListener link HandleClick)
                              HandleClick
        else link
  end.

(** [window.location.href = url] *)
Definition locationAssign (w : Window) (url : string) : Window :=
  mkWindow (location w) (document w) (navigations w ++ [Assign url]).

(** The click listener, run on [link]: whether it called
    [e.preventDefault()], and the window after it. *)
Definition handleClick (w : Window) (link : Link) : bool * Window :=
  match href link with
  | None => (false, w)
  | Some href =>
      if (href =? "") || startsWith href "http" || startsWith href "#" then
        (false, w)
      else
        let platform := Environment.getPlatform w in
        if Platform_eqb platform Vercel || Platform_eqb platform Netlify then
          (false, w)
        else (true, locationAssign w href)
  end.

Definition fixAllLinks (w : Window) : Window :=
  let context := Environment.getContext w in
  let links := anchors (document w) in
  mkWindow (location w)
           (mkDocument (metas (document w)) (map (fixLink context) links))
           (navigations w).

End LinkFixer.

Import Environment UrlCleaner LinkFixer.

(** ** The whole page

    The platform optimizer, the highlighter and the orchestrator touch more
    of the page than the link fixer does: the content of a [meta] element,
    the classes of an anchor, the console and the callbacks registered with
    the browser.  A [Page] carries them; [windowOf] is the part of it that
    the detector, the cleaner and the fixer work on. *)

(** A [meta] element that has a [name]. *)
Record Meta := mkMeta {
  meta_name : string;
  meta_content : string
}.

(** An anchor element in full: the part the fixer works on, whether the
    selector ['nav a, .nav-menu a, .footer-col a'] matches it, and its
    [classList]. *)
Record Anchor := mkAnchor {
  anchor_link : Link;
  inNav : bool;
  classList : list string
}.

(** The lines the script writes with [console.log]. *)
Inductive ConsoleLine :=
| LogRunningOn (platform : Platform)
| LogBasePath (basePath : string)
| LogVercelDetected
| LogNetlifyDetected
| LogLocalDevelopment (basePath : string)
| LogProductionMode.

(** [document.readyState] *)
Inductive ReadyState := Loading | Interactive | Complete.

(** The functions the script hands to the browser: [init], and the arrow
    function that runs the fixer and the highlighter. *)
Inductive Callback := InitCallback | RefreshCallback.

Definition Callback_eqb (a b : Callback) : bool :=
  match a, b with
  | InitCallback, InitCallback => true
  | RefreshCallback, RefreshCallback => true
  | _, _ => false
  end.

Record Page := mkPage {
  pg_location : Location;
  pg_readyState : ReadyState;
  pg_metas : list Meta;
  pg_anchors : list Anchor;
  pg_navigations : list Navigation;
  pg_console : list ConsoleLine;
  pg_domContentLoaded : list Callback;  (* listeners on [document] *)
  pg_observers : list Callback          (* child-list observers of the body *)
}.

Definition windowOf (p : Page) : Window :=
  mkWindow (pg_location p)
           (mkDocument (map meta_name (pg_metas p))
                       (map anchor_link (pg_anchors p)))
           (pg_navigations p).

Definition with_readyState (p : Page) (r : ReadyState) : Page :=
  mkPage (pg_location p) r (pg_metas p) (pg_anchors p) (pg_navigations p)
         (pg_console p) (pg_domContentLoaded p) (pg_observers p).

Definition with_anchors (p : Page) (l : list Anchor) : Page :=
  mkPage (pg_location p) (pg_readyState p) (pg_metas p) l (pg_navigations p)
         (pg_console p) (pg_domContentLoaded p) (pg_observers p).

Definition with_navigations (p : Page) (l : list Navigation) : Page :=
  mkPage (pg_location p) (pg_readyState p) (pg_metas p) (pg_anchors p) l
         (pg_console p) (pg_domContentLoaded p) (pg_observers p).

(** [document.head.appendChild(meta)] *)
Definition appendMeta (p : Page) (m : Meta) : Page :=
  mkPage (pg_location p) (pg_readyState p) (pg_metas p ++ [m]) (pg_anchors p)
         (pg_navigations p) (pg_console p) (pg_domContentLoaded p)
         (pg_observers p).

(** [console.log(...)] *)
Definition consoleLog (p : Page) (l : ConsoleLine) : Page :=
  mkPage (pg_location p) (pg_readyState p) (pg_metas p) (pg_anchors p)
         (pg_navigations p) (pg_console p ++ [l]) (pg_domContentLoaded p)
         (pg_observers p).

(** [document.addEventListener('DOMContentLoaded', f)] with a named
    function: registered once. *)
Definition addDOMContentLoaded (p : Page) (f : Callback) : Page :=
  mkPage (pg_location p) (pg_readyState p) (pg_metas p) (pg_anchors p)
         (pg_navigations p) (pg_console p)
         (if existsb (Callback_eqb f) (pg_domContentLoaded p)
          then pg_domContentLoaded p else pg_domContentLoaded p ++ [f])
         (pg_observers p).

(** [document.addEventListener('DOMContentLoaded', () => ...)]: every
    evaluation of the arrow function is a new listener. *)
Definition addDOMContentLoadedClosure (p : Page) (f : Callback) : Page :=
  mkPage (pg_location p) (pg_readyState p) (pg_metas p) (pg_anchors p)
         (pg_navigations p) (pg_console p) (pg_domContentLoaded p ++ [f])
         (pg_observers p).

(** [new MutationObserver(f).observe(document.body,
    {childList: true, subtree: true})] *)
Definition observeBody (p : Page) (f : Callback) : Page :=
  mkPage (pg_location p) (pg_readyState p) (pg_metas p) (pg_anchors p)
         (pg_navigations p) (pg_console p) (pg_domContentLoaded p)
         (pg_observers p ++ [f]).

(** [UrlCleaner.cleanCurrentUrl] on the page. *)
Definition cleanCurrentUrlPage (p : Page) : bool * Page :=
  let (redirected, w) := cleanCurrentUrl (windowOf p) in
  (redirected, with_navigations p (navigations w)).

(** [LinkFixer.fixAllLinks] on the page. *)
Definition fixAllLinksPage (p : Page) : Page :=
  let context := getContext (windowOf p) in
  with_anchors p
    (map (fun a => mkAnchor (fixLink context (anchor_link a))
                            (inNav a) (classList a))
         (pg_anchors p)).

(** [LinkFixer.handleClick] on the page, for a click on the anchor at
    position [i]; a position without an anchor is no click. *)
Definition clickPage (p : Page) (i : nat) : bool * Page :=
  match nth_error (pg_anchors p) i with
  | None => (false, p)
  | Some a =>
      if existsb (Listener_eqb HandleClick) (click (anchor_link a)) then
        let (prevented, w) := handleClick (windowOf p) (anchor_link a) in
        (prevented, with_navigations p (navigations w))
      else (false, p)
  end.

(** ** 4. Platform optimizations *)
Module PlatformOptimizer.

Definition init (p : Page) : Page :=
  let platform := getPlatform (windowOf p) in
  let p := appendMeta p (mkMeta "platform" (platformName platform)) in
  let p := if Platform_eqb platform Vercel
           then consoleLog p LogVercelDetected else p in
  let p := if Platform_eqb platform Netlify
           then consoleLog p LogNetlifyDetected else p in
  let p := if Platform_eqb platform Local
           then consoleLog p
                  (LogLocalDevelopment (basePath (getContext (windowOf p))))
           else p in
  if Platform_eqb platform Production
  then consoleLog p LogProductionMode else p.

End PlatformOptimizer.

(** ** 5. Active link highlighter *)
Module ActiveLink.

(** [classList.remove(token)] *)
Definition classList_remove (cl : list string) (token : string)
  : list string :=
  filter (fun c => negb (c =? token)) cl.

(** [classList.add(token)] *)
Definition classList_add (cl : list string) (token : string) : list string :=
  if existsb (String.eqb token) cl then cl else cl ++ [token].

(** The callback of the [forEach]. *)
Definition highlightLink (context : Context) (currentPath : string)
           (a : Anchor) : Anchor :=
  match href (anchor_link a) with
  | None => a
  | Some href =>
      if (href =? "") || (href =? "#") then a
      else
        let a := mkAnchor (anchor_link a) (inNav a)
                          (classList_remove (classList a) "active") in
        let activate :=
          mkAnchor (anchor_link a) (inNav a)
                   (classList_add (classList a) "active") in
        if ((href =? "/") || (href =? basePath context)) &&
           ((currentPath =? basePath context) ||
            (currentPath =? slice (basePath context) 0 (Some (-1)%Z)))
        then activate
        else if negb (href =? "/") && negb (href =? basePath context) &&
                includes currentPath href &&
                (1 <? String.length href)%nat
        then activate
        else a
  end.

Definition highlight (p : Page) : Page :=
  let currentPath := pathname (pg_location p) in
  let context := getContext (windowOf p) in
  with_anchors p
    (map (fun a => if inNav a then highlightLink context currentPath a else a)
         (pg_anchors p)).

End ActiveLink.

(** ** 6. Initialize *)

(** The arrow function given to [DOMContentLoaded] and to the observer. *)
Definition refresh (p : Page) : Page :=
  ActiveLink.highlight (fixAllLinksPage p).

Definition init (p : Page) : Page :=
  let context := getContext (windowOf p) in
  let p := consoleLog p (LogRunningOn (platform context)) in
  let p := consoleLog p (LogBasePath (basePath context)) in
  let p := snd (cleanCurrentUrlPage p) in
  let p := PlatformOptimizer.init p in
  let p := fixAllLinksPage p in
  let p := ActiveLink.highlight p in
  let p := addDOMContentLoadedClosure p RefreshCallback in
  observeBody p RefreshCallback.

(** The last statement of the script. *)
Definition start (p : Page) : Page :=
  match pg_readyState p with
  | Loading => addDOMContentLoaded p InitCallback
  | _ => init p
  end.

(** *** The browser's side

    What the browser does with the callbacks: it runs the listeners that
    are registered when [DOMContentLoaded] is dispatched, in order, with
    the document [Interactive]; and after nodes were added to or removed
    from the body it runs the observers. *)

Definition runCallback (p : Page) (f : Callback) : Page :=
  match f with
  | InitCallback => init p
  | RefreshCallback => refresh p
  end.

Definition fireDOMContentLoaded (p : Page) : Page :=
  fold_left runCallback (pg_domContentLoaded p)
            (with_readyState p Interactive).

Definition mutateBody (p : Page) (anchors' : list Anchor) : Page :=
  fold_left runCallback (pg_observers p) (with_anchors p anchors').

(** What can happen to the page once the script has started. *)
Inductive Event :=
| DOMContentLoaded
| Mutation (anchors' : list Anchor)
| Click (i : nat).

Definition handleEvent (p : Page) (e : Event) : Page :=
  match e with
  | DOMContentLoaded => fireDOMContentLoaded p
  | Mutation anchors' => mutateBody p anchors'
  | Click i => snd (clickPage p i)
  end.

Definition runEvents (p : Page) (es : list Event) : Page :=
  fold_left handleEvent es p.

(** ** Vocabulary of the statements *)

(** A well-formed base path: not empty, with a slash at both ends. *)
Definition slashed (s : string) : Prop :=
  s <> "" /\ startsWith s "/" = true /\ endsWith s "/" = true.

(** The six prefixes that mark a target as external. *)
Definition externalPrefixes : list string :=
  ["http"; "//"; "#"; "mailto:"; "tel:"; "javascript:"].

(** A page [q] with the location and the log of navigations of [p]. *)
Definition quiet (p q : Page) : Prop :=
  pg_location q = pg_location p /\ pg_navigations q = pg_navigations p.

(** ** Sample runs *)

Definition plainLink (h : string) : Link := mkLink (Some h) None [].

Definition page (host path : string) (ms : list string) (ls : list Link)
  : Window :=
  mkWindow (mkLocation host path "" "") (mkDocument ms ls) [].

Example split_sample :
  split "/alice.github.io/repo/menu.html" "/"%char =
  [""; "alice.github.io"; "repo"; "menu.html"].
Proof. reflexivity. Qed.

Example slice_sample : slice "/menu.html" 0 (Some (-5)%Z) = "/menu".
Proof. reflexivity. Qed.

(** ** Facts about the string methods *)
Section StringFacts.

Lemma length_append (a b : string) :
  String.length (a ++ b) = String.length a + String.length b.
Proof. induction a as [|c a IH]; simpl; [reflexivity | now rewrite IH]. Qed.

Lemma append_assoc (a b c : string) : (a ++ b) ++ c = a ++ b ++ c.
Proof. induction a as [|x a IH]; simpl; [reflexivity | now rewrite IH]. Qed.

Lemma endsWith_app (a b : string) : endsWith (a ++ b) b = true.
Proof.
  induction a as [|c a IH]; simpl.
  - destruct b; simpl; rewrite ?String.eqb_refl, ?Ascii.eqb_refl; reflexivity.
  - rewrite IH. apply orb_true_r.
Qed.

Lemma endsWith_inv (s suf : string) :
  endsWith s suf = true -> exists pre, s = pre ++ suf.
Proof.
  induction s as [|c s IH]; intros H.
  - destruct suf; [now exists "" | discriminate].
  - cbn [endsWith] in H. apply orb_true_iff in H. destruct H as [H | H].
    + apply String.eqb_eq in H. now exists "".
    + destruct (IH H) as [pre ->]. now exists (String c pre).
Qed.

Lemma startsWith_app (p s : string) : startsWith (p ++ s) p = true.
Proof.
  unfold startsWith. induction p as [|c p IH]; simpl.
  - now destruct s.
  - destruct (ascii_dec c c) as [_ | N]; [exact IH | now elim N].
Qed.

Lemma startsWith_inv (s p : string) :
  startsWith s p = true -> exists rest, s = p ++ rest.
Proof.
  unfold startsWith. revert s. induction p as [|c p IH]; intros s H.
  - now exists s.
  - destruct s as [|d s]; simpl in H; [discriminate |].
    destruct (ascii_dec c d) as [-> | _]; [| discriminate].
    destruct (IH s H) as [rest ->]. now exists rest.
Qed.

Lemma toLowerCase_length (s : string) :
  String.length (toLowerCase s) = String.length s.
Proof. induction s as [|c s IH]; simpl; [reflexivity | now rewrite IH]. Qed.

Lemma toLowerCase_app_inv (s a b : string) :
  toLowerCase s = a ++ b ->
  exists a' b', s = a' ++ b' /\ toLowerCase a' = a /\ toLowerCase b' = b.
Proof.
  revert s. induction a as [|c a IH]; intros s H; simpl in H.
  - exists "", s. auto.
  - destruct s as [|d s]; simpl in H; [discriminate |].
    injection H as Hc Hs. destruct (IH s Hs) as (a' & b' & -> & Ha & Hb).
    exists (String d a'), b'. simpl. rewrite Hc, Ha. auto.
Qed.

Lemma substring_app_l (a b : string) :
  String.substring 0 (String.length a) (a ++ b) = a.
Proof.
  induction a as [|c a IH]; simpl.
  - now destruct b.
  - now rewrite IH.
Qed.

(** [slice(0, -n)] drops a suffix of [n] code units, [n] positive. *)
Lemma slice_drop_suffix (pre suf : string) :
  (0 < String.length suf)%nat ->
  slice (pre ++ suf) 0 (Some (- Z.of_nat (String.length suf))%Z) = pre.
Proof.
  intros Hpos. unfold slice, relativeIndex. rewrite length_append.
  set (n := String.length pre). set (m := String.length suf) in *.
  replace (0 <? 0)%Z with false by reflexivity.
  replace (- Z.of_nat m <? 0)%Z with true by (symmetry; apply Z.ltb_lt; lia).
  replace (Z.to_nat (Z.min 0 (Z.of_nat (n + m)))) with 0%nat by lia.
  replace (Z.to_nat _) with n by lia.
  apply substring_app_l.
Qed.

End StringFacts.

(** ** Environment detection *)
Section EnvironmentFacts.

Lemma slashed_root : slashed "/".
Proof. repeat split; discriminate. Qed.

Lemma slashed_wrap (seg : string) : slashed ("/" ++ seg ++ "/").
Proof.
  repeat split.
  - discriminate.
  - apply (startsWith_app "/").
  - rewrite <- append_assoc. apply endsWith_app.
Qed.

Lemma firstSegment_slashed (path r : string) :
  firstSegment path = Some r -> slashed r.
Proof.
  unfold firstSegment.
  destruct ((2 <? _)%nat && _); [| discriminate].
  intros [= <-]. apply slashed_wrap.
Qed.

Lemma possiblePaths_slashed (p : string) : In p possiblePaths -> slashed p.
Proof.
  simpl. intros [<- | [<- | []]]; repeat split; discriminate.
Qed.

Lemma localCase_slashed (host path r : string) :
  localCase host path = Some r -> slashed r.
Proof.
  unfold localCase.
  destruct ((host =? "localhost") || (host =? "127.0.0.1")); [| discriminate].
  destruct (find _ possiblePaths) as [p |] eqn:F.
  - intros [= <-]. apply find_some in F. apply possiblePaths_slashed, F.
  - apply firstSegment_slashed.
Qed.

(** A metadata marker of Vercel or Netlify alone gives the root base path,
    whatever the host name. *)
Lemma getBasePath_marker (w : Window) :
  hasMeta (document w) "vercel" = true \/
  hasMeta (document w) "netlify" = true ->
  getBasePath w = "/".
Proof.
  unfold getBasePath. intros [H | H]; rewrite H, orb_true_r.
  - reflexivity.
  - now destruct (_ || _).
Qed.

(** [getPlatform] reads the host name only. *)
Lemma getPlatform_hostname (w w' : Window) :
  hostname (location w) = hostname (location w') ->
  getPlatform w = getPlatform w'.
Proof. unfold getPlatform. now intros ->. Qed.

End EnvironmentFacts.

(** C9. For every host name, path and document metadata, the base path that
    the environment detector computes is a non-empty string that begins
    with "/" and ends with "/". *)
Theorem getBasePath_slashed (w : Window) :
  getBasePath w <> "" /\
  startsWith (getBasePath w) "/" = true /\
  endsWith (getBasePath w) "/" = true.
Proof.
  change (slashed (getBasePath w)). unfold getBasePath.
  destruct (_ || hasMeta _ "vercel"); [apply slashed_root |].
  destruct (_ || hasMeta _ "netlify"); [apply slashed_root |].
  destruct (includes _ "github.io").
  - destruct (firstSegment _) as [r |] eqn:E.
    + eapply firstSegment_slashed, E.
    + apply slashed_root.
  - destruct (localCase _ _) as [r |] eqn:E.
    + eapply localCase_slashed, E.
    + destruct (_ || _); apply slashed_root.
Qed.

(** C3, as the code has it.  For host name "alice.github.io" and path
    "/alice.github.io/repo/menu.html", in a document without a Vercel or
    Netlify marker, the base path is "/" plus the first path segment plus
    "/", which is "/alice.github.io/". *)
Theorem github_example_basePath (w : Window) :
  hostname (location w) = "alice.github.io" ->
  pathname (location w) = "/alice.github.io/repo/menu.html" ->
  hasMeta (document w) "vercel" = false ->
  hasMeta (document w) "netlify" = false ->
  getBasePath w = "/alice.github.io/".
Proof.
  intros Hh Hp Hv Hn. unfold getBasePath. rewrite Hh, Hp, Hv, Hn.
  reflexivity.
Qed.

Lemma github_example_basePath_witness :
  getBasePath
    (page "alice.github.io" "/alice.github.io/repo/menu.html" [] []) =
  "/alice.github.io/".
Proof. apply github_example_basePath; reflexivity. Defined.

(** C3, as the specification states it, fails: the base path of the example
    is not "/repo/". *)
Lemma github_example_not_repo :
  getBasePath
    (page "alice.github.io" "/alice.github.io/repo/menu.html" [] []) <>
  "/repo/".
Proof. vm_compute. discriminate. Qed.

(** C7, as the code has it.  A host name that reaches none of the rules 1
    to 4 and is the production domain or does not contain "localhost" gets
    the base path "/"; its platform is Production when it is the production
    domain, with or without "www.", and Unknown otherwise. *)
Theorem production_rule (w : Window) :
  let host := hostname (location w) in
  includes host "vercel.app" = false ->
  includes host "netlify.app" = false ->
  includes host "github.io" = false ->
  host <> "localhost" ->
  host <> "127.0.0.1" ->
  host = "meatlovers.co.ke" \/ host = "www.meatlovers.co.ke" \/
  includes host "localhost" = false ->
  getBasePath w = "/" /\
  (host = "meatlovers.co.ke" \/ host = "www.meatlovers.co.ke" ->
   getPlatform w = Production) /\
  (host <> "meatlovers.co.ke" -> host <> "www.meatlovers.co.ke" ->
   getPlatform w = Unknown).
Proof.
  intros host Hv Hn Hg Hl Hi _.
  apply String.eqb_neq in Hl, Hi.
  assert (L : localCase host (pathname (location w)) = None).
  { unfold localCase. now rewrite Hl, Hi. }
  split; [| split].
  - unfold getBasePath. fold host. rewrite Hv, Hn, Hg, L.
    repeat match goal with
           | |- context [if ?b then _ else _] => destruct b
           end; reflexivity.
  - intros P. unfold getPlatform. fold host. rewrite Hv, Hn, Hg, Hl, Hi.
    simpl. destruct P as [-> | ->]; reflexivity.
  - intros P1 P2. apply String.eqb_neq in P1, P2.
    unfold getPlatform. fold host. rewrite Hv, Hn, Hg, Hl, Hi, P1, P2.
    reflexivity.
Qed.

Lemma production_rule_witness :
  getBasePath (page "www.meatlovers.co.ke" "/menu" [] []) = "/" /\
  getPlatform (page "www.meatlovers.co.ke" "/menu" [] []) = Production /\
  getPlatform (page "example.com" "/menu" [] []) = Unknown.
Proof.
  split; [| split].
  - apply (production_rule (page "www.meatlovers.co.ke" "/menu" [] []));
      try reflexivity; try discriminate.
    right; left; reflexivity.
  - apply (production_rule (page "www.meatlovers.co.ke" "/menu" [] []));
      try reflexivity; try discriminate.
    + right; left; reflexivity.
    + right; reflexivity.
  - apply (production_rule (page "example.com" "/menu" [] []));
      try reflexivity; try discriminate.
    right; right; reflexivity.
Defined.

(** C7, as the specification states it, fails: "example.com" reaches none
    of the rules 1 to 4 and does not contain "localhost", and its platform
    is not Production. *)
Lemma production_rule_not_every_host :
  ~ (forall w : Window,
       let host := hostname (location w) in
       includes host "vercel.app" = false ->
       includes host "netlify.app" = false ->
       includes host "github.io" = false ->
       host <> "localhost" ->
       host <> "127.0.0.1" ->
       host = "meatlovers.co.ke" \/ host = "www.meatlovers.co.ke" \/
       includes host "localhost" = false ->
       getPlatform w = Production /\ getBasePath w = "/").
Proof.
  intros H.
  assert (P : getPlatform (page "example.com" "/menu" [] []) = Production).
  { apply H.
    - reflexivity.
    - reflexivity.
    - reflexivity.
    - discriminate.
    - discriminate.
    - right; right; reflexivity. }
  vm_compute in P. discriminate P.
Qed.

(** ** URL cleaner *)
Section UrlCleanerFacts.

Lemma Platform_eqb_eq (p q : Platform) : Platform_eqb p q = true <-> p = q.
Proof. destruct p, q; vm_compute; split; congruence. Qed.

Lemma Platform_eqb_neq (p q : Platform) : Platform_eqb p q = false <-> p <> q.
Proof. destruct p, q; vm_compute; split; congruence. Qed.

(** A path whose lower-case form ends with ".html" is the result of
    [slice(0, -5)] followed by a suffix that reads ".html" in lower case. *)
Lemma html_suffix_stripped (path : string) :
  endsWith (toLowerCase path) ".html" = true ->
  exists suf,
    path = slice path 0 (Some (-5)%Z) ++ suf /\ toLowerCase suf = ".html".
Proof.
  intros H. apply endsWith_inv in H. destruct H as [pre H].
  apply toLowerCase_app_inv in H. destruct H as (a & b & -> & _ & Hb).
  assert (L : String.length b = 5).
  { now rewrite <- toLowerCase_length, Hb. }
  exists b. split; [| exact Hb].
  change (-5)%Z with (- Z.of_nat 5)%Z. rewrite <- L.
  rewrite slice_drop_suffix; [reflexivity | lia].
Qed.

Lemma append_inv_head (a b c : string) : a ++ b = a ++ c -> b = c.
Proof. induction a as [|x a IH]; simpl; [auto | intros [= H]; auto]. Qed.

(** With a query string that is empty or starts with "?" and a fragment
    that is empty or starts with "#", as [location] has them, the new URL
    of a path that ends with ".html" always differs from the path. *)
Lemma newUrl_differs (path q f : string) :
  endsWith (toLowerCase path) ".html" = true ->
  q = "" \/ startsWith q "?" = true ->
  f = "" \/ startsWith f "#" = true ->
  slice path 0 (Some (-5)%Z) ++ q ++ f <> path.
Proof.
  intros H Hq Hf E.
  destruct (html_suffix_stripped path H) as (suf & P & L).
  rewrite P in E at 2. apply append_inv_head in E. subst suf.
  destruct Hq as [-> | Hq].
  - destruct Hf as [-> | Hf]; [discriminate L |].
    apply startsWith_inv in Hf. destruct Hf as [r ->]. discriminate L.
  - apply startsWith_inv in Hq. destruct Hq as [r ->]. discriminate L.
Qed.

End UrlCleanerFacts.

(** C5. On a platform other than Vercel and Netlify, when the path ends
    with ".html" in any letter case and the stripped URL differs from the
    path, the cleaner issues exactly one navigation, a replace, to the path
    without its last five code units (the suffix) followed by the query
    string and the fragment, and returns true.  When the path does not end
    with ".html", or the platform is Vercel or Netlify, it issues no
    navigation and returns false. *)
Theorem cleanCurrentUrl_spec (w : Window) :
  let path := pathname (location w) in
  let newUrl :=
    slice path 0 (Some (-5)%Z) ++ search (location w) ++ hash (location w) in
  (getPlatform w <> Vercel -> getPlatform w <> Netlify ->
   endsWith (toLowerCase path) ".html" = true ->
   newUrl <> path ->
   cleanCurrentUrl w =
     (true,
      mkWindow (location w) (document w) (navigations w ++ [Replace newUrl]))
   /\ exists suf,
        path = slice path 0 (Some (-5)%Z) ++ suf /\
        toLowerCase suf = ".html")
  /\
  (endsWith (toLowerCase path) ".html" = false \/
   getPlatform w = Vercel \/ getPlatform w = Netlify ->
   cleanCurrentUrl w = (false, w)).
Proof.
  intros path newUrl. split.
  - intros Hv Hn He Hd. split; [| now apply html_suffix_stripped].
    apply Platform_eqb_neq in Hv, Hn. apply String.eqb_neq in Hd.
    unfold cleanCurrentUrl, locationReplace. fold path.
    rewrite Hv, Hn, He. fold newUrl. now rewrite Hd.
  - intros H. unfold cleanCurrentUrl. fold path.
    destruct (Platform_eqb _ Vercel || Platform_eqb _ Netlify) eqn:E;
      [reflexivity |].
    apply orb_false_iff in E. destruct E as [Ev En].
    apply Platform_eqb_neq in Ev, En.
    destruct H as [-> | [H | H]]; [reflexivity | contradiction ..].
Qed.

Lemma cleanCurrentUrl_spec_witness :
  let w := mkWindow (mkLocation "localhost" "/Meatlovers/Menu.HTML"
                                "?table=4" "#starters")
                    (mkDocument [] []) [] in
  let v := page "meatlovers.vercel.app" "/menu.html" [] [] in
  cleanCurrentUrl w =
    (true,
     mkWindow (location w) (document w)
              [Replace "/Meatlovers/Menu?table=4#starters"]) /\
  cleanCurrentUrl v = (false, v).
Proof.
  intros w v. split.
  - apply (proj1 (cleanCurrentUrl_spec w)).
    + discriminate.
    + discriminate.
    + reflexivity.
    + discriminate.
  - apply (proj2 (cleanCurrentUrl_spec v)). right; left; reflexivity.
Defined.

(** ** Link fixer *)
Section LinkFixerFacts.

(** A link that the callback skips is left as it is: target, stored
    original value and listeners. *)
Lemma fixLink_skipped (context : Context) (link : Link) :
  skipped (href link) = true -> fixLink context link = link.
Proof.
  unfold fixLink. destruct (href link) as [h |]; [| reflexivity].
  now intros ->.
Qed.

Lemma fixAllLinks_nth (w : Window) (i : nat) (link : Link) :
  nth_error (anchors (document w)) i = Some link ->
  nth_error (anchors (document (fixAllLinks w))) i =
  Some (fixLink (getContext w) link).
Proof. intros H. unfold fixAllLinks. simpl. now apply map_nth_error. Qed.

Lemma external_skipped (h : string) :
  (exists p, In p externalPrefixes /\ startsWith h p = true) ->
  skipped (Some h) = true.
Proof.
  intros (p & Hin & Hp). unfold skipped. simpl in Hin.
  destruct Hin as [<- | [<- | [<- | [<- | [<- | [<- | []]]]]]];
    rewrite Hp; rewrite ?orb_true_r; reflexivity.
Qed.

(** The fixer does not touch the location, the metadata or the log of
    navigations, so a second pass runs in the same context. *)
Lemma getContext_fixAllLinks (w : Window) :
  getContext (fixAllLinks w) = getContext w.
Proof. reflexivity. Qed.

End LinkFixerFacts.

(** C8. On every platform, a pass of the link fixer leaves an anchor whose
    target begins with "http", "//", "#", "mailto:", "tel:" or
    "javascript:" as it is: same target, no stored original value added, no
    click listener added. *)
Theorem fixAllLinks_external (w : Window) (i : nat) (link : Link)
        (h p : string) :
  nth_error (anchors (document w)) i = Some link ->
  href link = Some h ->
  In p externalPrefixes ->
  startsWith h p = true ->
  nth_error (anchors (document (fixAllLinks w))) i = Some link.
Proof.
  intros Hi Hh Hin Hp. rewrite (fixAllLinks_nth w i link Hi).
  f_equal. apply fixLink_skipped. rewrite Hh.
  apply external_skipped. now exists p.
Qed.

Lemma fixAllLinks_external_witness :
  nth_error
    (anchors (document (fixAllLinks
       (page "localhost" "/Meatlovers/menu.html" []
             [plainLink "/menu"; plainLink "mailto:info@meatlovers.co.ke"]))))
    1 = Some (plainLink "mailto:info@meatlovers.co.ke").
Proof.
  apply (fixAllLinks_external _ 1 _ "mailto:info@meatlovers.co.ke" "mailto:").
  - reflexivity.
  - reflexivity.
  - simpl. tauto.
  - reflexivity.
Defined.

(** C10. An anchor whose target begins with the four characters "http" is
    skipped by the callback in every context, also when the target is a
    relative page name such as "httpd-guide.html": it keeps its target, and
    gets no stored original value and no click listener. *)
Theorem fixLink_http (context : Context) (link : Link) (h : string) :
  href link = Some h ->
  startsWith h "http" = true ->
  skipped (href link) = true /\
  fixLink context link = link /\
  fixLink context (plainLink "httpd-guide.html") =
  plainLink "httpd-guide.html".
Proof.
  intros Hh Hp.
  assert (S : skipped (href link) = true).
  { rewrite Hh. unfold skipped. now rewrite Hp, orb_true_r. }
  split; [exact S |]. split; [now apply fixLink_skipped |].
  now apply fixLink_skipped.
Qed.

Lemma fixLink_http_witness :
  let context := getContext (page "localhost" "/Meatlovers/" [] []) in
  let link := mkLink (Some "httpd-guide.html") None [OtherListener 7] in
  fixLink context link = link.
Proof.
  intros context link.
  apply (fixLink_http context link "httpd-guide.html"); reflexivity.
Defined.

(** C6. For host name "localhost" and path "/Meatlovers/menu.html", in a
    document without a Vercel or Netlify marker, the base path is
    "/Meatlovers/", and one pass of the link fixer turns the target "/menu"
    of an anchor into "/Meatlovers/menu". *)
Theorem localhost_example (w : Window) :
  hostname (location w) = "localhost" ->
  pathname (location w) = "/Meatlovers/menu.html" ->
  hasMeta (document w) "vercel" = false ->
  hasMeta (document w) "netlify" = false ->
  getBasePath w = "/Meatlovers/" /\
  forall (i : nat) (link : Link),
    nth_error (anchors (document w)) i = Some link ->
    href link = Some "/menu" ->
    exists link',
      nth_error (anchors (document (fixAllLinks w))) i = Some link' /\
      href link' = Some "/Meatlovers/menu".
Proof.
  intros Hh Hp Hv Hn.
  assert (B : getBasePath w = "/Meatlovers/").
  { unfold getBasePath. rewrite Hh, Hp, Hv, Hn. reflexivity. }
  assert (P : getPlatform w = Local).
  { unfold getPlatform. rewrite Hh. reflexivity. }
  split; [exact B |]. intros i link Hi Hl.
  exists (fixLink (getContext w) link). split; [now apply fixAllLinks_nth |].
  unfold fixLink. rewrite Hl.
  change (skipped (Some "/menu")) with false. cbv iota.
  unfold fixedHref, getContext. cbn [platform basePath]. rewrite B, P.
  reflexivity.
Qed.

Lemma localhost_example_witness :
  let w := page "localhost" "/Meatlovers/menu.html" [] [plainLink "/menu"] in
  getBasePath w = "/Meatlovers/" /\
  exists link',
    nth_error (anchors (document (fixAllLinks w))) 0 = Some link' /\
    href link' = Some "/Meatlovers/menu".
Proof.
  intros w.
  destruct (localhost_example w) as [B F]; try reflexivity.
  split; [exact B |].
  apply (F 0 (plainLink "/menu")); reflexivity.
Defined.

(** ** Repeated passes *)
Section RepeatedPasses.

(** What a pass stores and writes on an anchor it does not skip. *)
Lemma fixLink_rewritten (context : Context) (link : Link) (h : string) :
  href link = Some h ->
  skipped (Some h) = false ->
  href (fixLink context link) = Some (fixedHref context h) /\
  data_original_href (fixLink context link) = Some h.
Proof.
  intros Hh Hs. unfold fixLink. rewrite Hh, Hs.
  destruct (negb _ && negb _); split; reflexivity.
Qed.

(** Off the local platform, or with the root base path, a second pass
    writes the target of the first again, provided the first left no
    further ".html" suffix to strip. *)
Lemma fixLink_href_stable (context : Context) (link : Link) (h : string) :
  platform context <> Local \/ basePath context = "/" ->
  href link = Some h ->
  endsWith (fixedHref context h) ".html" = false ->
  href (fixLink context (fixLink context link)) =
  href (fixLink context link).
Proof.
  intros Hc Hh He.
  assert (G : Platform_eqb (platform context) Local &&
              negb (basePath context =? "/") = false).
  { destruct Hc as [Hc | Hc].
    - apply Platform_eqb_neq in Hc. now rewrite Hc.
    - rewrite Hc. apply andb_false_r. }
  destruct (skipped (href link)) eqn:S.
  - rewrite (fixLink_skipped context link S). now rewrite fixLink_skipped.
  - rewrite Hh in S.
    destruct (fixLink_rewritten context link h Hh S) as [R _].
    destruct (skipped (href (fixLink context link))) eqn:S'.
    + now rewrite (fixLink_skipped context (fixLink context link) S').
    + rewrite R in S'.
      destruct (fixLink_rewritten context _ _ R S') as [R' _].
      rewrite R', R. f_equal.
      unfold fixedHref at 1. rewrite He, G.
      now destruct (startsWith _ "/").
Qed.

End RepeatedPasses.

(** C1, at the input where the code departs from it.  On "localhost" under
    "/Meatlovers/", the first pass turns the target "/menu" into
    "/Meatlovers/menu", and the second pass, on the unchanged document,
    prepends the base path again. *)
Theorem fixAllLinks_twice_prepends_twice :
  let w := page "localhost" "/Meatlovers/menu.html" [] [plainLink "/menu"] in
  map href (anchors (document (fixAllLinks w))) =
    [Some "/Meatlovers/menu"] /\
  map href (anchors (document (fixAllLinks (fixAllLinks w)))) =
    [Some "/Meatlovers/Meatlovers/menu"].
Proof. split; reflexivity. Qed.

(** C2, at the input where the code departs from it.  The first pass
    stores the target "menu.html" as the original value and writes "menu";
    the second pass stores again, without a test, and the stored value
    becomes "menu". *)
Theorem fixAllLinks_twice_overwrites_original :
  let w := page "meatlovers.co.ke" "/" [] [plainLink "menu.html"] in
  map data_original_href (anchors (document (fixAllLinks w))) =
    [Some "menu.html"] /\
  map data_original_href (anchors (document (fixAllLinks (fixAllLinks w)))) =
    [Some "menu"].
Proof. split; reflexivity. Qed.

(** C4, at the input where the code departs from it.  With a "vercel"
    marker in a page served from "meatlovers.co.ke", the base path is "/",
    but the platform is Production: the cleaner replaces "/menu.html" by
    "/menu", and the link fixer attaches its click listener.  The same
    holds with a "netlify" marker. *)
Theorem marker_not_read_by_getPlatform :
  forall marker, marker = "vercel" \/ marker = "netlify" ->
  let w := page "meatlovers.co.ke" "/menu.html" [marker]
                [plainLink "about.html"] in
  getBasePath w = "/" /\
  getPlatform w = Production /\
  cleanCurrentUrl w =
    (true, mkWindow (location w) (document w) [Replace "/menu"]) /\
  map click (anchors (document (fixAllLinks w))) = [[HandleClick]].
Proof. intros marker [-> | ->]; repeat split. Qed.

Lemma marker_not_read_by_getPlatform_witness :
  getPlatform
    (page "meatlovers.co.ke" "/menu.html" ["vercel"]
          [plainLink "about.html"]) = Production.
Proof. apply (marker_not_read_by_getPlatform "vercel"). now left. Defined.

(** ** More on the environment detection *)
Section SegmentFacts.

Lemma includes_slash_cons (c : ascii) (s : string) :
  includes (String c s) "/" = Ascii.eqb c "/" || includes s "/".
Proof.
  cbn [includes String.prefix].
  destruct (ascii_dec "/" c) as [<- | N].
  - now destruct s.
  - assert (E : Ascii.eqb c "/" = false).
    { apply Ascii.eqb_neq. congruence. }
    now rewrite E.
Qed.

Lemma split_not_nil (s : string) (sep : ascii) : split s sep <> [].
Proof.
  destruct s as [|c s]; cbn [split]; [discriminate |].
  destruct (Ascii.eqb c sep); [discriminate |].
  destruct (split s sep); discriminate.
Qed.

(** A segment without a slash is one part. *)
Lemma split_segment (seg : string) :
  includes seg "/" = false -> split seg "/" = [seg].
Proof.
  induction seg as [|c seg IH]; intros H; [reflexivity |].
  rewrite includes_slash_cons in H. apply orb_false_iff in H.
  destruct H as [Hc Hs]. cbn [split]. rewrite Hc, (IH Hs). reflexivity.
Qed.

(** A segment without a slash, followed by a slash, is the first part. *)
Lemma split_segment_slash (seg rest : string) :
  includes seg "/" = false ->
  split (seg ++ "/" ++ rest) "/" = seg :: split rest "/".
Proof.
  induction seg as [|c seg IH]; intros H; [reflexivity |].
  rewrite includes_slash_cons in H. apply orb_false_iff in H.
  destruct H as [Hc Hs]. cbn [split append]. rewrite Hc.
  change (seg ++ String "/" rest) with (seg ++ "/" ++ rest).
  rewrite (IH Hs). reflexivity.
Qed.

(** A path with two parts or more is its first part, a slash, and the
    rest. *)
Lemma split_two_parts (s p1 p2 : string) (ps : list string) :
  split s "/" = p1 :: p2 :: ps -> exists rest, s = p1 ++ "/" ++ rest.
Proof.
  revert p1. induction s as [|c s IH]; intros p1 H; [discriminate |].
  cbn [split] in H. destruct (Ascii.eqb c "/") eqn:E.
  - apply Ascii.eqb_eq in E. subst c. injection H as <- _. now exists s.
  - destruct (split s "/") as [|q qs] eqn:S; [discriminate |].
    injection H as <- ->. destruct (IH q eq_refl) as [rest ->].
    now exists rest.
Qed.

Lemma firstSegment_prefix (path r : string) :
  startsWith path "/" = true ->
  firstSegment path = Some r -> startsWith path r = true.
Proof.
  intros Hp. apply startsWith_inv in Hp. destruct Hp as [q ->].
  unfold firstSegment. change (split ("/" ++ q) "/") with ("" :: split q "/").
  destruct (split q "/") as [|p1 [|p2 ps]] eqn:S; try discriminate.
  cbn [List.length index nth_error toStr].
  destruct (_ && _); [| discriminate]. intros [= <-].
  destruct (split_two_parts q p1 p2 ps S) as [rest ->].
  change ("/" ++ p1 ++ "/" ++ rest) with (String "/" (p1 ++ "/" ++ rest)).
  rewrite <- (append_assoc p1 "/" rest).
  change (String "/" ((p1 ++ "/") ++ rest))
    with (("/" ++ p1 ++ "/") ++ rest).
  apply startsWith_app.
Qed.

Lemma firstSegment_nested (seg rest : string) :
  seg <> "" -> includes seg "/" = false ->
  firstSegment ("/" ++ seg ++ "/" ++ rest) = Some ("/" ++ seg ++ "/").
Proof.
  intros Hne Hs. unfold firstSegment.
  change (split ("/" ++ seg ++ "/" ++ rest) "/")
    with ("" :: split (seg ++ "/" ++ rest) "/").
  rewrite (split_segment_slash seg rest Hs).
  destruct (split rest "/") as [|q qs] eqn:S;
    [now apply split_not_nil in S |].
  cbn [List.length index nth_error toStr notEmptyString].
  destruct seg; [now elim Hne | reflexivity].
Qed.

Lemma firstSegment_flat (seg : string) :
  includes seg "/" = false -> firstSegment ("/" ++ seg) = None.
Proof.
  intros Hs. unfold firstSegment.
  change (split ("/" ++ seg) "/") with ("" :: split seg "/").
  now rewrite (split_segment seg Hs).
Qed.

Lemma localCase_prefix (host path r : string) :
  startsWith path "/" = true ->
  localCase host path = Some r -> startsWith path r = true.
Proof.
  intros Hp. unfold localCase. destruct (_ || _); [| discriminate].
  destruct (find _ possiblePaths) as [b |] eqn:F.
  - intros [= <-]. now apply find_some in F.
  - now apply firstSegment_prefix.
Qed.

Lemma getBasePath_is_slashed (w : Window) : slashed (getBasePath w).
Proof.
  unfold getBasePath.
  repeat match goal with
         | |- slashed (if ?b then _ else _) => destruct b
         | |- slashed "/" => apply slashed_root
         end.
  - destruct (firstSegment _) as [r |] eqn:E;
      [eapply firstSegment_slashed, E | apply slashed_root].
  - destruct (localCase _ _) as [r |] eqn:E;
      [eapply localCase_slashed, E |].
    destruct (_ || _); apply slashed_root.
Qed.

End SegmentFacts.

(** X1. A base path other than "/" is only ever computed on GitHub Pages
    or on a local host: on Vercel, Netlify, the production domain and
    unknown hosts the base path is "/". *)
Theorem nonroot_basePath_platform (w : Window) :
  getBasePath w <> "/" ->
  getPlatform w = GitHubPages \/ getPlatform w = Local.
Proof.
  unfold getBasePath, getPlatform, localCase.
  destruct (includes _ "vercel.app").
  { intros H. now elim H. }
  destruct (includes _ "netlify.app").
  { intros H. destruct (false || _); now elim H. }
  destruct (includes _ "github.io"); [now left |].
  destruct ((_ =? "localhost") || (_ =? "127.0.0.1")); [now right |].
  intros H. exfalso. apply H.
  repeat match goal with
         | |- context [if ?b then _ else _] => destruct b
         end; reflexivity.
Qed.

Lemma nonroot_basePath_platform_witness :
  getPlatform (page "alice.github.io" "/repo/menu" [] []) = GitHubPages \/
  getPlatform (page "alice.github.io" "/repo/menu" [] []) = Local.
Proof. apply nonroot_basePath_platform. discriminate. Defined.

(** X2. The part test of the detector, on paths as the browser gives them:
    a path with a non-empty first segment and a slash after it yields that
    segment between slashes, whatever follows; a path of one segment yields
    nothing, so that a page at the top level gets the base path "/". *)
Theorem firstSegment_cases (seg rest : string) :
  includes seg "/" = false ->
  (seg <> "" ->
   firstSegment ("/" ++ seg ++ "/" ++ rest) = Some ("/" ++ seg ++ "/")) /\
  firstSegment ("/" ++ seg) = None.
Proof.
  intros Hs. split.
  - intros Hne. now apply firstSegment_nested.
  - now apply firstSegment_flat.
Qed.

Lemma firstSegment_cases_witness :
  firstSegment ("/" ++ "shop" ++ "/" ++ "menu/starters.html") =
    Some "/shop/" /\
  firstSegment ("/" ++ "shop") = None.
Proof.
  destruct (firstSegment_cases "shop" "menu/starters.html") as [A B];
    [reflexivity |].
  split; [apply A; discriminate | exact B].
Defined.

(** X3. On a local host the list of known folders never changes the
    answer: the local case returns what the part test returns on the path,
    and on any other host it falls through. *)
Theorem localCase_is_firstSegment (host path : string) :
  localCase host path =
  if (host =? "localhost") || (host =? "127.0.0.1") then firstSegment path
  else None.
Proof.
  unfold localCase. destruct (_ || _); [| reflexivity].
  cbn [find possiblePaths].
  destruct (startsWith path "/Meatlovers/") eqn:A.
  - apply startsWith_inv in A. destruct A as [rest ->].
    symmetry. apply (firstSegment_nested "Meatlovers" rest);
      [discriminate | reflexivity].
  - destruct (startsWith path "/meatlovers/") eqn:B; [| reflexivity].
    apply startsWith_inv in B. destruct B as [rest ->].
    symmetry. apply (firstSegment_nested "meatlovers" rest);
      [discriminate | reflexivity].
Qed.

(** X4. The base path is always a prefix of the current path, for a path
    that starts with "/" as [location.pathname] does. *)
Theorem basePath_prefix_of_path (w : Window) :
  startsWith (pathname (location w)) "/" = true ->
  startsWith (pathname (location w)) (getBasePath w) = true.
Proof.
  intros Hp. unfold getBasePath.
  repeat match goal with
         | |- startsWith _ (if ?b then _ else _) = true => destruct b
         | |- startsWith _ "/" = true => exact Hp
         end.
  - destruct (firstSegment _) as [r |] eqn:E; [| exact Hp].
    now apply firstSegment_prefix.
  - destruct (localCase _ _) as [r |] eqn:E.
    + eapply localCase_prefix; eassumption.
    + destruct (_ || _); exact Hp.
Qed.

Lemma basePath_prefix_of_path_witness :
  startsWith "/Shop/menu.html"
             (getBasePath (page "127.0.0.1" "/Shop/menu.html" [] [])) = true.
Proof.
  apply (basePath_prefix_of_path (page "127.0.0.1" "/Shop/menu.html" [] [])).
  reflexivity.
Defined.

(** ** More on the URL cleaner *)

(** X5. In a browser, where the query string is empty or starts with "?"
    and the fragment is empty or starts with "#", a path that ends with
    ".html" in any letter case is always redirected on a platform other
    than Vercel and Netlify: the cleaner returns true and asks for one
    replace, to the path without the suffix followed by the query string
    and the fragment. *)
Theorem html_path_always_redirects (w : Window) :
  let path := pathname (location w) in
  getPlatform w <> Vercel -> getPlatform w <> Netlify ->
  endsWith (toLowerCase path) ".html" = true ->
  search (location w) = "" \/ startsWith (search (location w)) "?" = true ->
  hash (location w) = "" \/ startsWith (hash (location w)) "#" = true ->
  cleanCurrentUrl w =
  (true,
   locationReplace w
     (slice path 0 (Some (-5)%Z) ++ search (location w) ++ hash (location w))).
Proof.
  intros path Hv Hn He Hq Hf.
  pose proof (newUrl_differs path _ _ He Hq Hf) as D.
  apply Platform_eqb_neq in Hv, Hn. apply String.eqb_neq in D.
  unfold cleanCurrentUrl. fold path. now rewrite Hv, Hn, He, D.
Qed.

Lemma html_path_always_redirects_witness :
  let w := mkWindow (mkLocation "example.com" "/Menu.Html" "?day=fri" "")
                    (mkDocument [] []) [] in
  cleanCurrentUrl w = (true, locationReplace w "/Menu?day=fri").
Proof.
  intros w. apply (html_path_always_redirects w).
  - discriminate.
  - discriminate.
  - reflexivity.
  - right. reflexivity.
  - left. reflexivity.
Defined.

(** ** More on the link fixer *)
Section FixedHrefFacts.

Lemma prefix_empty (s : string) : String.prefix "" s = true.
Proof. now destruct s. Qed.

Lemma startsWith_slash_cons (c : ascii) (s : string) :
  startsWith (String c s) "/" = Ascii.eqb c "/".
Proof.
  unfold startsWith. cbn [String.prefix]. rewrite prefix_empty.
  destruct (ascii_dec "/" c) as [<- | N]; [reflexivity |].
  symmetry. apply Ascii.eqb_neq. congruence.
Qed.



(** The first step of [fixedHref]: the target, or the target without its
    ".html". *)
Lemma strip_html (h : string) :
  let x := if endsWith h ".html" then slice h 0 (Some (-5)%Z) else h in
  (endsWith h ".html" = false /\ x = h) \/ h = x ++ ".html".
Proof.
  destruct (endsWith h ".html") eqn:E; [right | now left].
  apply endsWith_inv in E. destruct E as [pre ->].
  symmetry. f_equal. now apply (slice_drop_suffix pre ".html"); simpl; lia.
Qed.

(** A target that the fixer does not skip starts with none of the
    prefixes that [handleClick] lets through, and neither does a non-empty
    prefix of it. *)
Lemma prefix_not_skipped (x rest : string) :
  skipped (Some (x ++ rest)) = false -> x <> "" ->
  startsWith x "http" = false /\ startsWith x "#" = false.
Proof.
  intros S Hx. unfold skipped in S.
  repeat (apply orb_false_iff in S; destruct S as [S ?]).
  split.
  - destruct (startsWith x "http") eqn:E; [| reflexivity].
    apply startsWith_inv in E. destruct E as [r ->].
    rewrite append_assoc, startsWith_app in *. discriminate.
  - destruct (startsWith x "#") eqn:E; [| reflexivity].
    apply startsWith_inv in E. destruct E as [r ->].
    rewrite append_assoc, startsWith_app in *. discriminate.
Qed.

End FixedHrefFacts.



(** X7. Off the local platform, or with the base path "/", or for a target
    that does not start with "/", the fixer only strips: the rewritten
    target is the target itself when it does not end with ".html", and the
    target without that suffix otherwise. *)
Theorem fixedHref_only_strips (context : Context) (h : string) :
  platform context <> Local \/ basePath context = "/" \/
  startsWith h "/" = false ->
  (endsWith h ".html" = false /\ fixedHref context h = h) \/
  h = fixedHref context h ++ ".html".
Proof.
  intros H. unfold fixedHref.
  pose proof (strip_html h) as C. cbv zeta in C.
  set (x := if endsWith h ".html" then _ else h) in *.
  assert (G : (if startsWith x "/"
               then if Platform_eqb (platform context) Local &&
                       negb (basePath context =? "/")
                    then basePath context ++ slice x 1 None else x
               else x) = x).
  { destruct (startsWith x "/") eqn:Sx; [| reflexivity].
    destruct H as [H | [H | H]].
    - apply Platform_eqb_neq in H. now rewrite H.
    - rewrite H. now rewrite andb_false_r.
    - exfalso. destruct C as [[_ C] | C].
      + rewrite C in Sx. congruence.
      + destruct x as [|c x']; [discriminate |].
        rewrite C in H. cbn [append] in H.
        rewrite startsWith_slash_cons in H, Sx. congruence. }
  rewrite G. exact C.
Qed.

Lemma fixedHref_only_strips_witness :
  (endsWith "/about.html" ".html" = false /\
   fixedHref (getContext (page "example.com" "/menu" [] [])) "/about.html" =
   "/about.html") \/
  "/about.html" =
  fixedHref (getContext (page "example.com" "/menu" [] [])) "/about.html" ++
  ".html".
Proof.
  apply (fixedHref_only_strips
           (getContext (page "example.com" "/menu" [] [])) "/about.html").
  left. discriminate.
Defined.

(** ** Passes of the link fixer, one after another *)
Section Passes.

Variable context : Context.

Let isHandleClick (g : Listener) : bool := Listener_eqb g HandleClick.
Let isForeign (g : Listener) : bool := negb (Listener_eqb g HandleClick).

(** Removing the script's listener and adding it again leaves the foreign
    listeners in place and the script's listener once, at the end. *)
Lemma readd_listener (l : Link) :
  click (addEventListener (removeEventListener l HandleClick) HandleClick) =
  (filter isForeign (click l) ++ [HandleClick])%list.
Proof.
  unfold addEventListener, removeEventListener. cbn [click].
  fold isForeign. fold isHandleClick.
  assert (E : existsb isHandleClick (filter isForeign (click l)) = false).
  { induction (click l) as [|g gs IH]; [reflexivity |].
    cbn [filter]. unfold isForeign at 1.
    destruct (Listener_eqb g HandleClick) eqn:G; cbn [negb]; [exact IH |].
    cbn [existsb]. unfold isHandleClick at 1. now rewrite G. }
  now rewrite E.
Qed.

Lemma filter_foreign_readd (gs : list Listener) :
  filter isForeign (filter isForeign gs ++ [HandleClick])%list =
  filter isForeign gs.
Proof.
  rewrite filter_app. cbn. rewrite app_nil_r.
  induction gs as [|g gs IH]; [reflexivity |].
  cbn [filter]. destruct (isForeign g) eqn:G; [| exact IH].
  cbn [filter]. now rewrite G, IH.
Qed.

Lemma filter_own_readd (gs : list Listener) :
  filter isHandleClick (filter isForeign gs ++ [HandleClick])%list =
  [HandleClick].
Proof.
  rewrite filter_app. cbn.
  induction gs as [|g gs IH]; [reflexivity |].
  cbn [filter]. unfold isForeign at 1.
  destruct (Listener_eqb g HandleClick) eqn:G; cbn [negb]; [exact IH |].
  cbn [filter]. unfold isHandleClick at 1. now rewrite G.
Qed.

(** The listeners after the callback: untouched, or the script's listener
    added again. *)
Lemma fixLink_click (l : Link) :
  click (fixLink context l) = click l \/
  (skipped (href l) = false /\
   Platform_eqb (platform context) Vercel = false /\
   Platform_eqb (platform context) Netlify = false /\
   click (fixLink context l) =
   (filter isForeign (click l) ++ [HandleClick])%list).
Proof.
  unfold fixLink. destruct (href l) as [h |] eqn:Hh; [| now left].
  destruct (skipped (Some h)) eqn:S; [now left |].
  destruct (Platform_eqb (platform context) Vercel) eqn:V; [now left |].
  destruct (Platform_eqb (platform context) Netlify) eqn:N; [now left |].
  right. cbn [negb andb]. rewrite readd_listener. cbn [click set_href
    set_data_original_href]. auto.
Qed.

Lemma fixLink_foreign (l : Link) :
  filter isForeign (click (fixLink context l)) = filter isForeign (click l).
Proof.
  destruct (fixLink_click l) as [-> | (_ & _ & _ & ->)]; [reflexivity |].
  apply filter_foreign_readd.
Qed.

Lemma fixLink_own_kept (l : Link) :
  filter isHandleClick (click l) = [HandleClick] ->
  filter isHandleClick (click (fixLink context l)) = [HandleClick].
Proof.
  intros H. destruct (fixLink_click l) as [-> | (_ & _ & _ & ->)];
    [exact H | apply filter_own_readd].
Qed.

Lemma fixLink_own_first (l : Link) :
  platform context <> Vercel -> platform context <> Netlify ->
  skipped (href l) = false ->
  filter isHandleClick (click (fixLink context l)) = [HandleClick].
Proof.
  intros V N S. apply Platform_eqb_neq in V, N.
  unfold fixLink. destruct (href l) as [h |] eqn:Hh; [| discriminate].
  rewrite S, V, N. cbn [negb andb]. rewrite readd_listener.
  apply filter_own_readd.
Qed.

Lemma fixLink_hosted (l : Link) :
  platform context = Vercel \/ platform context = Netlify ->
  click (fixLink context l) = click l.
Proof.
  intros H. unfold fixLink. destruct (href l) as [h |]; [| reflexivity].
  destruct (skipped (Some h)); [reflexivity |].
  destruct H as [-> | ->]; reflexivity.
Qed.

(** The target after the callback is a function of the target before. *)
Lemma fixLink_href (l : Link) :
  href (fixLink context l) =
  match href l with
  | None => None
  | Some h => if skipped (Some h) then Some h else Some (fixedHref context h)
  end.
Proof.
  unfold fixLink. destruct (href l) as [h |] eqn:Hh; [| exact Hh].
  destruct (skipped (Some h)); [exact Hh |].
  now destruct (negb _ && negb _).
Qed.

Lemma fixLink_href_congr (l l' : Link) :
  href l = href l' -> href (fixLink context l) = href (fixLink context l').
Proof. intros H. now rewrite !fixLink_href, H. Qed.

Lemma iter_listeners (n : nat) (l : Link) :
  filter isForeign (click (Nat.iter n (fixLink context) l)) =
    filter isForeign (click l) /\
  (platform context = Vercel \/ platform context = Netlify ->
   click (Nat.iter n (fixLink context) l) = click l) /\
  (platform context <> Vercel -> platform context <> Netlify ->
   skipped (href l) = false -> 1 <= n ->
   filter isHandleClick (click (Nat.iter n (fixLink context) l)) =
   [HandleClick]).
Proof.
  induction n as [|n (F & H & O)]; cbn [Nat.iter nat_rect].
  - repeat split; auto. lia.
  - split; [| split].
    + now rewrite fixLink_foreign.
    + intros P. rewrite fixLink_hosted; auto.
    + intros V N S _. destruct n as [|n].
      * now apply fixLink_own_first.
      * apply fixLink_own_kept. apply O; auto. lia.
Qed.

Lemma iter_href_settled (n : nat) (l : Link) (h : string) :
  platform context <> Local \/ basePath context = "/" ->
  href l = Some h ->
  endsWith (fixedHref context h) ".html" = false ->
  href (Nat.iter (S n) (fixLink context) l) = href (fixLink context l).
Proof.
  intros Hc Hh He. induction n as [|n IH]; [reflexivity |].
  change (Nat.iter (S (S n)) (fixLink context) l)
    with (fixLink context (Nat.iter (S n) (fixLink context) l)).
  rewrite (fixLink_href_congr _ (fixLink context l) IH).
  now apply fixLink_href_stable with (h := h).
Qed.

End Passes.

Section WindowPasses.

Lemma iter_fixAllLinks (n : nat) (w : Window) :
  Nat.iter n fixAllLinks w =
  mkWindow (location w)
           (mkDocument (metas (document w))
                       (map (Nat.iter n (fixLink (getContext w)))
                            (anchors (document w))))
           (navigations w).
Proof.
  induction n as [|n IH]; cbn [Nat.iter nat_rect].
  - destruct w as [loc [ms ls] nav]. cbn. now rewrite map_id.
  - change (nat_rect _ w (fun _ => fixAllLinks) n)
      with (Nat.iter n fixAllLinks w).
    rewrite IH. unfold fixAllLinks at 1. cbn [location document metas anchors
      navigations]. rewrite map_map. reflexivity.
Qed.

Lemma iter_fixAllLinks_nth (n i : nat) (w : Window) (l : Link) :
  nth_error (anchors (document w)) i = Some l ->
  nth_error (anchors (document (Nat.iter n fixAllLinks w))) i =
  Some (Nat.iter n (fixLink (getContext w)) l).
Proof.
  intros H. rewrite iter_fixAllLinks. cbn [document anchors].
  now apply map_nth_error.
Qed.

End WindowPasses.

(** X8. Click listeners over any number of passes of the link fixer.  On
    every anchor, the listeners of other scripts stay as they are, in
    order.  On Vercel and Netlify the listeners are not touched at all.
    Elsewhere, an anchor that the first pass does not skip carries the
    script's listener exactly once after one pass or more: repeated passes
    do not pile up handlers. *)
Theorem fixAllLinks_listeners (w : Window) (n i : nat) (l : Link) :
  nth_error (anchors (document w)) i = Some l ->
  exists l',
    nth_error (anchors (document (Nat.iter n fixAllLinks w))) i = Some l' /\
    filter (fun g => negb (Listener_eqb g HandleClick)) (click l') =
    filter (fun g => negb (Listener_eqb g HandleClick)) (click l) /\
    (getPlatform w = Vercel \/ getPlatform w = Netlify ->
     click l' = click l) /\
    (getPlatform w <> Vercel -> getPlatform w <> Netlify ->
     skipped (href l) = false -> 1 <= n ->
     filter (fun g => Listener_eqb g HandleClick) (click l') =
     [HandleClick]).
Proof.
  intros H. exists (Nat.iter n (fixLink (getContext w)) l).
  split; [now apply iter_fixAllLinks_nth |].
  exact (iter_listeners (getContext w) n l).
Qed.

Lemma fixAllLinks_listeners_witness :
  let w := page "example.com" "/" []
             [mkLink (Some "menu.html") None [HandleClick; OtherListener 3]] in
  exists l',
    nth_error (anchors (document (Nat.iter 3 fixAllLinks w))) 0 = Some l' /\
    filter (fun g => negb (Listener_eqb g HandleClick)) (click l') =
    [OtherListener 3] /\
    filter (fun g => Listener_eqb g HandleClick) (click l') = [HandleClick].
Proof.
  intros w.
  destruct (fixAllLinks_listeners w 3 0
              (mkLink (Some "menu.html") None [HandleClick; OtherListener 3])
              eq_refl) as (l' & N & F & _ & O).
  exists l'. split; [exact N |]. split; [exact F |].
  apply O.
  - discriminate.
  - discriminate.
  - reflexivity.
  - lia.
Defined.

(** X9. Off the local platform, or with the base path "/", the target of
    an anchor settles with the first pass once that pass leaves no further
    ".html" to strip: after any number of passes it is what the first pass
    wrote. *)
Theorem fixAllLinks_href_settles (w : Window) (n i : nat) (l : Link)
        (h : string) :
  nth_error (anchors (document w)) i = Some l ->
  href l = Some h ->
  getPlatform w <> Local \/ getBasePath w = "/" ->
  endsWith (fixedHref (getContext w) h) ".html" = false ->
  exists l',
    nth_error (anchors (document (Nat.iter (S n) fixAllLinks w))) i =
    Some l' /\
    href l' = href (fixLink (getContext w) l).
Proof.
  intros Hi Hh Hc He.
  exists (Nat.iter (S n) (fixLink (getContext w)) l).
  split; [now apply iter_fixAllLinks_nth |].
  now apply iter_href_settled with (h := h).
Qed.

Lemma fixAllLinks_href_settles_witness :
  let w := page "alice.github.io" "/repo/menu" [] [plainLink "about.html"] in
  exists l',
    nth_error (anchors (document (Nat.iter 4 fixAllLinks w))) 0 = Some l' /\
    href l' = href (fixLink (getContext w) (plainLink "about.html")).
Proof.
  intros w.
  apply (fixAllLinks_href_settles w 3 0 (plainLink "about.html")
                                  "about.html").
  - reflexivity.
  - reflexivity.
  - left. discriminate.
  - reflexivity.
Defined.

(** ** Clicks on rewritten links *)
Section ClickFacts.

Lemma append_nil_r (a : string) : a ++ "" = a.
Proof. induction a as [|c a IH]; simpl; [reflexivity | now rewrite IH]. Qed.

(** What the fixer writes is never a target that [handleClick] lets
    through, unless it is empty. *)
Lemma fixedHref_clickable (context : Context) (h : string) :
  slashed (basePath context) ->
  skipped (Some h) = false ->
  fixedHref context h <> "" ->
  startsWith (fixedHref context h) "http" = false /\
  startsWith (fixedHref context h) "#" = false.
Proof.
  intros (_ & Hb & _) S. unfold fixedHref.
  pose proof (strip_html h) as C. cbv zeta in C.
  set (x := if endsWith h ".html" then _ else h) in *.
  assert (X : x <> "" ->
              startsWith x "http" = false /\ startsWith x "#" = false).
  { destruct C as [[_ C] | C].
    - apply (prefix_not_skipped x ""). now rewrite append_nil_r, C.
    - apply (prefix_not_skipped x ".html"). now rewrite <- C. }
  destruct (startsWith x "/"); [| exact X].
  destruct (_ && _); [| exact X].
  intros _. apply startsWith_inv in Hb. destruct Hb as [b ->].
  split; reflexivity.
Qed.

Lemma own_listener_present (context : Context) (l : Link) :
  platform context <> Vercel -> platform context <> Netlify ->
  skipped (href l) = false ->
  existsb (Listener_eqb HandleClick) (click (fixLink context l)) = true.
Proof.
  intros V N S. apply Platform_eqb_neq in V, N.
  unfold fixLink. destruct (href l) as [h |]; [| discriminate].
  rewrite S, V, N. cbn [negb andb]. rewrite readd_listener.
  rewrite existsb_app. cbn. apply orb_true_r.
Qed.

End ClickFacts.

(** X10. After a pass of the link fixer on a platform other than Vercel
    and Netlify, a click on an anchor that the pass did not skip is
    intercepted and navigates, by assignment, to exactly the target that
    the pass wrote, provided that target is not empty. *)
Theorem click_follows_rewrite (p : Page) (i : nat) (a : Anchor) (h : string) :
  let context := getContext (windowOf p) in
  nth_error (pg_anchors p) i = Some a ->
  href (anchor_link a) = Some h ->
  skipped (Some h) = false ->
  getPlatform (windowOf p) <> Vercel ->
  getPlatform (windowOf p) <> Netlify ->
  fixedHref context h <> "" ->
  clickPage (fixAllLinksPage p) i =
  (true,
   with_navigations (fixAllLinksPage p)
     (pg_navigations p ++ [Assign (fixedHref context h)])).
Proof.
  intros context Hi Hh S V N Hf.
  assert (S' : skipped (href (anchor_link a)) = false) by now rewrite Hh.
  unfold clickPage, fixAllLinksPage at 1. cbn [pg_anchors with_anchors].
  rewrite (map_nth_error _ _ _ Hi). cbn [anchor_link]. fold context.
  rewrite (own_listener_present context (anchor_link a) V N S').
  destruct (fixLink_rewritten context (anchor_link a) h Hh S) as [R _].
  destruct (fixedHref_clickable context h (getBasePath_is_slashed _) S Hf)
    as [H1 H2].
  apply String.eqb_neq in Hf. apply Platform_eqb_neq in V, N.
  unfold handleClick. rewrite R, Hf, H1, H2. cbn [orb].
  change (getPlatform (windowOf (fixAllLinksPage p)))
    with (getPlatform (windowOf p)).
  rewrite V, N. reflexivity.
Qed.

Lemma click_follows_rewrite_witness :
  let p := mkPage (mkLocation "localhost" "/Shop/menu" "" "") Complete []
                  [mkAnchor (plainLink "/about.html") true []] [] [] [] [] in
  clickPage (fixAllLinksPage p) 0 =
  (true, with_navigations (fixAllLinksPage p) [Assign "/Shop/about"]).
Proof.
  intros p.
  apply (click_follows_rewrite p 0 (mkAnchor (plainLink "/about.html") true [])
                               "/about.html").
  - reflexivity.
  - reflexivity.
  - reflexivity.
  - discriminate.
  - discriminate.
  - discriminate.
Defined.

(** ** The active link highlighter *)
Section HighlightFacts.

Import ActiveLink.

Lemma remove_remove (cl : list string) (t : string) :
  classList_remove (classList_remove cl t) t = classList_remove cl t.
Proof.
  unfold classList_remove. induction cl as [|c cl IH]; [reflexivity |].
  cbn [filter]. destruct (negb (c =? t)) eqn:E; [| exact IH].
  cbn [filter]. now rewrite E, IH.
Qed.

Lemma remove_add (cl : list string) (t : string) :
  classList_remove (classList_add cl t) t = classList_remove cl t.
Proof.
  unfold classList_add, classList_remove.
  destruct (existsb _ cl); [reflexivity |].
  rewrite filter_app. cbn. rewrite String.eqb_refl. cbn. apply app_nil_r.
Qed.

Lemma in_add (cl : list string) (t : string) : In t (classList_add cl t).
Proof.
  unfold classList_add. destruct (existsb _ cl) eqn:E.
  - apply existsb_exists in E. destruct E as (c & Hc & E).
    apply String.eqb_eq in E. now subst c.
  - apply in_or_app. right. now left.
Qed.

Lemma not_in_remove (cl : list string) (t : string) :
  ~ In t (classList_remove cl t).
Proof.
  unfold classList_remove. intros H. apply filter_In in H.
  destruct H as [_ H]. now rewrite String.eqb_refl in H.
Qed.

(** The callback rewrites the classes only, and only the token
    "active". *)
Lemma highlightLink_frame (context : Context) (path : string) (a : Anchor) :
  anchor_link (highlightLink context path a) = anchor_link a /\
  inNav (highlightLink context path a) = inNav a /\
  classList_remove (classList (highlightLink context path a)) "active" =
  classList_remove (classList a) "active".
Proof.
  unfold highlightLink. destruct (href (anchor_link a)) as [h |]; [| auto].
  destruct ((h =? "") || (h =? "#")); [auto |].
  cbn [anchor_link inNav classList].
  repeat match goal with
         | |- context [if ?b then _ else _] => destruct b
         end; cbn [anchor_link inNav classList];
    rewrite ?remove_add, ?remove_remove; auto.
Qed.

Lemma highlightLink_again (context : Context) (path : string) (a : Anchor) :
  highlightLink context path (highlightLink context path a) =
  highlightLink context path a.
Proof.
  unfold highlightLink. destruct (href (anchor_link a)) as [h |] eqn:Hh;
    [| now rewrite Hh].
  destruct ((h =? "") || (h =? "#")) eqn:E; [now rewrite Hh, E |].
  cbn [anchor_link inNav classList].
  destruct (((h =? "/") || (h =? basePath context)) && _) eqn:A.
  - cbn [anchor_link inNav classList]. rewrite Hh, E, A.
    now rewrite remove_add, remove_remove.
  - destruct (negb (h =? "/") && _ && _ && _) eqn:B;
      cbn [anchor_link inNav classList]; rewrite Hh, E, A, B.
    + now rewrite remove_add, remove_remove.
    + now rewrite remove_remove.
Qed.

Lemma highlight_nth (p : Page) (i : nat) (a : Anchor) :
  nth_error (pg_anchors p) i = Some a ->
  nth_error (pg_anchors (highlight p)) i =
  Some (if inNav a
        then highlightLink (getContext (windowOf p))
                           (pathname (pg_location p)) a
        else a).
Proof.
  intros H. unfold highlight. cbn [pg_anchors with_anchors].
  now rewrite (map_nth_error _ _ _ H).
Qed.

Lemma windowOf_highlight (p : Page) : windowOf (highlight p) = windowOf p.
Proof.
  unfold highlight, windowOf. cbn [pg_location pg_metas pg_anchors
    pg_navigations with_anchors]. rewrite map_map. do 2 f_equal.
  apply map_ext. intros a. destruct (inNav a); [| reflexivity].
  apply highlightLink_frame.
Qed.

End HighlightFacts.

(** X11. The highlighter leaves an anchor exactly as it is, a stale
    "active" class included, when the anchor is outside the navigation
    containers, has no target, or has the target "" or "#". *)
Theorem highlight_untouched (p : Page) (i : nat) (a : Anchor) :
  nth_error (pg_anchors p) i = Some a ->
  inNav a = false \/ href (anchor_link a) = None \/
  href (anchor_link a) = Some "" \/ href (anchor_link a) = Some "#" ->
  nth_error (pg_anchors (ActiveLink.highlight p)) i = Some a.
Proof.
  intros Hi H. rewrite (highlight_nth p i a Hi). f_equal.
  destruct (inNav a); [| reflexivity].
  unfold ActiveLink.highlightLink.
  destruct H as [H | [-> | [-> | ->]]]; [discriminate | reflexivity ..].
Qed.

Lemma highlight_untouched_witness :
  let a := mkAnchor (plainLink "#") true ["btn"; "active"] in
  let p := mkPage (mkLocation "example.com" "/menu" "" "") Complete []
                  [a] [] [] [] [] in
  nth_error (pg_anchors (ActiveLink.highlight p)) 0 = Some a.
Proof.
  intros a p. apply (highlight_untouched p 0 a).
  - reflexivity.
  - right; right; right. reflexivity.
Defined.

(** X12. The highlighter changes nothing of the page but the class
    "active" of its anchors: location, metadata, navigations, console and
    callbacks stay, and every anchor keeps its target, its listeners and
    all its other classes, in order. *)
Theorem highlight_frame (p : Page) :
  windowOf (ActiveLink.highlight p) = windowOf p /\
  pg_metas (ActiveLink.highlight p) = pg_metas p /\
  pg_console (ActiveLink.highlight p) = pg_console p /\
  pg_domContentLoaded (ActiveLink.highlight p) = pg_domContentLoaded p /\
  pg_observers (ActiveLink.highlight p) = pg_observers p /\
  forall i a,
    nth_error (pg_anchors p) i = Some a ->
    exists a',
      nth_error (pg_anchors (ActiveLink.highlight p)) i = Some a' /\
      anchor_link a' = anchor_link a /\
      inNav a' = inNav a /\
      ActiveLink.classList_remove (classList a') "active" =
      ActiveLink.classList_remove (classList a) "active".
Proof.
  split; [apply windowOf_highlight |]. repeat (split; [reflexivity |]).
  intros i a Hi.
  pose proof (highlightLink_frame (getContext (windowOf p))
                (pathname (pg_location p)) a) as (A & B & C).
  exists (if inNav a
          then ActiveLink.highlightLink (getContext (windowOf p))
                                        (pathname (pg_location p)) a
          else a).
  split; [apply (highlight_nth p i a Hi) |].
  destruct (inNav a) eqn:E; repeat split; assumption || reflexivity.
Qed.

Lemma highlight_frame_witness :
  let a := mkAnchor (plainLink "/menu") true ["btn"; "active"; "wide"] in
  let p := mkPage (mkLocation "example.com" "/about" "" "") Complete []
                  [a] [] [] [] [] in
  exists a',
    nth_error (pg_anchors (ActiveLink.highlight p)) 0 = Some a' /\
    anchor_link a' = anchor_link a /\
    inNav a' = inNav a /\
    ActiveLink.classList_remove (classList a') "active" =
    ActiveLink.classList_remove (classList a) "active".
Proof.
  intros a p.
  destruct (highlight_frame p) as (_ & _ & _ & _ & _ & F).
  apply (F 0 a). reflexivity.
Defined.

(** X13. Running the highlighter twice is running it once. *)
Theorem highlight_idempotent (p : Page) :
  ActiveLink.highlight (ActiveLink.highlight p) = ActiveLink.highlight p.
Proof.
  unfold ActiveLink.highlight at 1.
  rewrite windowOf_highlight.
  unfold ActiveLink.highlight. cbn [pg_location pg_anchors with_anchors].
  unfold with_anchors. cbn. f_equal.
  rewrite map_map. apply map_ext. intros a.
  destruct (inNav a) eqn:E; [| now rewrite E].
  destruct (highlightLink_frame (getContext (windowOf p))
              (pathname (pg_location p)) a) as (_ & -> & _).
  rewrite E. apply highlightLink_again.
Qed.

(** X14. A navigation anchor whose target is "/" or the base path is
    marked active after the highlighter if and only if the current path is
    the base path, or the base path without its last code unit: a stale
    mark is cleared, and the home link is never marked on another page,
    though every path contains "/". *)
Theorem home_link_active_iff (p : Page) (i : nat) (a : Anchor) (h : string) :
  let context := getContext (windowOf p) in
  let path := pathname (pg_location p) in
  nth_error (pg_anchors p) i = Some a ->
  inNav a = true ->
  href (anchor_link a) = Some h ->
  h = "/" \/ h = basePath context ->
  exists a',
    nth_error (pg_anchors (ActiveLink.highlight p)) i = Some a' /\
    (In "active" (classList a') <->
     path = basePath context \/
     path = slice (basePath context) 0 (Some (-1)%Z)).
Proof.
  intros context path Hi Hn Hh Hhome.
  eexists. split; [apply (highlight_nth p i a Hi) |].
  rewrite Hn. fold context path. unfold ActiveLink.highlightLink. rewrite Hh.
  assert (Hs : startsWith h "/" = true).
  { destruct Hhome as [-> | ->]; [reflexivity |].
    apply (getBasePath_is_slashed (windowOf p)). }
  apply startsWith_inv in Hs. destruct Hs as [t Ht].
  assert (E : (h =? "") || (h =? "#") = false) by now rewrite Ht.
  assert (A : (h =? "/") || (h =? basePath context) = true).
  { destruct Hhome as [-> | ->]; [reflexivity |].
    rewrite String.eqb_refl. apply orb_true_r. }
  assert (B : negb (h =? "/") && negb (h =? basePath context) = false).
  { apply orb_true_iff in A. destruct A as [-> | ->]; [reflexivity |].
    apply andb_false_r. }
  rewrite E, A, B. cbn [andb anchor_link inNav classList].
  destruct ((path =? basePath context) ||
            (path =? slice (basePath context) 0 (Some (-1)%Z))) eqn:C;
    cbn [classList].
  - split; [intros _ | intros _; apply in_add].
    apply orb_true_iff in C.
    destruct C as [C | C]; apply String.eqb_eq in C; auto.
  - split; [intros H; now apply not_in_remove in H |].
    apply orb_false_iff in C. destruct C as [C1 C2].
    apply String.eqb_neq in C1, C2. tauto.
Qed.

Lemma home_link_active_iff_witness :
  let a := mkAnchor (plainLink "/") true ["active"] in
  let p := mkPage (mkLocation "example.com" "/menu" "" "") Complete []
                  [a] [] [] [] [] in
  exists a',
    nth_error (pg_anchors (ActiveLink.highlight p)) 0 = Some a' /\
    (In "active" (classList a') <-> "/menu" = "/" \/ "/menu" = "").
Proof.
  intros a p. apply (home_link_active_iff p 0 a "/").
  - reflexivity.
  - reflexivity.
  - reflexivity.
  - left. reflexivity.
Defined.

(** X15. After a run of the fixer and the highlighter (what every callback
    of the script does), a navigation anchor that the fixer did not skip
    carries the rewritten target and is marked active whenever the current
    path contains that rewritten target, the target is longer than one
    code unit and is neither "/" nor the base path. *)
Theorem refresh_marks_current (p : Page) (i : nat) (a : Anchor) (h : string) :
  let context := getContext (windowOf p) in
  let target := fixedHref context h in
  nth_error (pg_anchors p) i = Some a ->
  inNav a = true ->
  href (anchor_link a) = Some h ->
  skipped (Some h) = false ->
  target <> "/" -> target <> basePath context ->
  1 < String.length target ->
  includes (pathname (pg_location p)) target = true ->
  exists a',
    nth_error (pg_anchors (refresh p)) i = Some a' /\
    href (anchor_link a') = Some target /\
    In "active" (classList a').
Proof.
  intros context target Hi Hn Hh S T1 T2 L I.
  destruct (fixLink_rewritten context (anchor_link a) h Hh S) as [R _].
  set (a1 := mkAnchor (fixLink context (anchor_link a)) (inNav a)
                      (classList a)).
  assert (H1 : nth_error (pg_anchors (fixAllLinksPage p)) i = Some a1).
  { unfold fixAllLinksPage. cbn [pg_anchors with_anchors].
    now rewrite (map_nth_error _ _ _ Hi). }
  eexists. split; [apply (highlight_nth _ i a1 H1) |].
  cbn [inNav a1]. rewrite Hn.
  change (getContext (windowOf (fixAllLinksPage p))) with context.
  change (pg_location (fixAllLinksPage p)) with (pg_location p).
  unfold ActiveLink.highlightLink. cbn [anchor_link a1]. rewrite R.
  fold target.
  assert (E : (target =? "") || (target =? "#") = false).
  { destruct target as [|c [|d t]]; cbn [String.length] in L;
      [lia | lia |].
    cbn. destruct (Ascii.eqb c "#"); reflexivity. }
  apply String.eqb_neq in T1, T2. apply Nat.ltb_lt in L.
  rewrite E, T1, T2, I, L. cbn [orb andb negb anchor_link inNav classList].
  split; [exact R | apply in_add].
Qed.

Lemma refresh_marks_current_witness :
  let a := mkAnchor (plainLink "/menu.html") true [] in
  let p := mkPage (mkLocation "localhost" "/Shop/menu" "" "") Complete []
                  [a] [] [] [] [] in
  exists a',
    nth_error (pg_anchors (refresh p)) 0 = Some a' /\
    href (anchor_link a') = Some "/Shop/menu" /\
    In "active" (classList a').
Proof.
  intros a p. apply (refresh_marks_current p 0 a "/menu.html").
  - reflexivity.
  - reflexivity.
  - reflexivity.
  - reflexivity.
  - discriminate.
  - discriminate.
  - simpl. lia.
  - reflexivity.
Defined.

(** ** The optimizer, the orchestrator and the callbacks *)
Section PageFacts.

(** The detector reads the location and the names of the [meta] elements,
    and of these names only "vercel" and "netlify". *)
Lemma getContext_platform_meta (w w' : Window) :
  location w' = location w ->
  metas (document w') = (metas (document w) ++ ["platform"])%list ->
  getContext w' = getContext w.
Proof.
  intros Hl Hm.
  assert (M : forall n, (n =? "platform") = false ->
                        hasMeta (document w') n = hasMeta (document w) n).
  { intros n Hn. unfold hasMeta. rewrite Hm, existsb_app. cbn.
    rewrite Hn. cbn. apply orb_false_r. }
  unfold getContext, getBasePath, getPlatform.
  rewrite Hl, !M by reflexivity. reflexivity.
Qed.

Lemma getContext_ext (w w' : Window) :
  location w' = location w ->
  metas (document w') = metas (document w) ->
  getContext w' = getContext w.
Proof.
  intros Hl Hm. unfold getContext, getBasePath, getPlatform, hasMeta.
  now rewrite Hl, Hm.
Qed.

Lemma cleanCurrentUrl_cases (w : Window) :
  cleanCurrentUrl w = (false, w) \/
  exists url, cleanCurrentUrl w = (true, locationReplace w url).
Proof.
  unfold cleanCurrentUrl.
  repeat match goal with
         | |- context [if ?b then _ else _] => destruct b
         end; eauto.
Qed.

Lemma cleanCurrentUrl_hosted (w : Window) :
  getPlatform w = Vercel \/ getPlatform w = Netlify ->
  cleanCurrentUrl w = (false, w).
Proof. unfold cleanCurrentUrl. now intros [-> | ->]. Qed.

Lemma handleClick_hosted (w : Window) (l : Link) :
  getPlatform w = Vercel \/ getPlatform w = Netlify ->
  handleClick w l = (false, w).
Proof.
  intros H. unfold handleClick. destruct (href l) as [h |]; [| reflexivity].
  destruct (_ || _); [reflexivity |]. now destruct H as [-> | ->].
Qed.

(** The page after the cleaner: only the log of navigations differs. *)
Lemma cleanCurrentUrlPage_snd (p : Page) :
  snd (cleanCurrentUrlPage p) =
  with_navigations p (navigations (snd (cleanCurrentUrl (windowOf p)))).
Proof.
  unfold cleanCurrentUrlPage. now destruct (cleanCurrentUrl (windowOf p)).
Qed.

(** The page after the optimizer: one [meta] more, and maybe a line on the
    console. *)
Lemma optimizer_page (p : Page) :
  exists lines,
    PlatformOptimizer.init p =
    mkPage (pg_location p) (pg_readyState p)
           (pg_metas p ++
            [mkMeta "platform" (platformName (getPlatform (windowOf p)))])
           (pg_anchors p) (pg_navigations p) (pg_console p ++ lines)
           (pg_domContentLoaded p) (pg_observers p) /\
    List.length lines <= 1.
Proof.
  unfold PlatformOptimizer.init.
  destruct (getPlatform (windowOf p)); cbn;
    [eexists [_] | eexists [_] | exists [] | eexists [_] | eexists [_]
     | exists []];
    rewrite ?app_nil_r; (split; [reflexivity | cbn; lia]).
Qed.

Lemma getContext_optimizer (p : Page) :
  getContext (windowOf (PlatformOptimizer.init p)) = getContext (windowOf p).
Proof.
  destruct (optimizer_page p) as (lines & -> & _).
  apply getContext_platform_meta; cbn; [reflexivity |].
  now rewrite map_app.
Qed.

Lemma getContext_clean (p : Page) :
  getContext (windowOf (snd (cleanCurrentUrlPage p))) =
  getContext (windowOf p).
Proof. rewrite cleanCurrentUrlPage_snd. reflexivity. Qed.

(** [init] field by field. *)
Lemma init_page (p : Page) :
  pg_location (init p) = pg_location p /\
  pg_readyState (init p) = pg_readyState p /\
  pg_metas (init p) =
    (pg_metas p ++
     [mkMeta "platform" (platformName (getPlatform (windowOf p)))])%list /\
  pg_navigations (init p) =
    navigations (snd (cleanCurrentUrl (windowOf p))) /\
  pg_domContentLoaded (init p) =
    (pg_domContentLoaded p ++ [RefreshCallback])%list /\
  pg_observers (init p) = (pg_observers p ++ [RefreshCallback])%list /\
  pg_anchors (init p) = pg_anchors (refresh p).
Proof.
  unfold init.
  set (p0 := consoleLog (consoleLog p _) _).
  assert (W0 : windowOf p0 = windowOf p) by reflexivity.
  set (p1 := snd (cleanCurrentUrlPage p0)).
  assert (E1 : p1 = with_navigations p0
                      (navigations (snd (cleanCurrentUrl (windowOf p)))))
    by (unfold p1; now rewrite cleanCurrentUrlPage_snd, W0).
  assert (C2 : getContext (windowOf (PlatformOptimizer.init p1)) =
               getContext (windowOf p)).
  { rewrite getContext_optimizer. unfold p1. now rewrite getContext_clean. }
  destruct (optimizer_page p1) as (lines & E2 & _).
  unfold ActiveLink.highlight, fixAllLinksPage, refresh,
    ActiveLink.highlight, fixAllLinksPage.
  cbn [pg_location pg_readyState pg_metas pg_navigations pg_anchors
       pg_domContentLoaded pg_observers with_anchors observeBody
       addDOMContentLoadedClosure].
  change (windowOf
            (with_anchors (PlatformOptimizer.init p1)
               (map (fun a => mkAnchor
                       (fixLink (getContext
                                   (windowOf (PlatformOptimizer.init p1)))
                                (anchor_link a)) (inNav a) (classList a))
                    (pg_anchors (PlatformOptimizer.init p1)))))
    with (windowOf (fixAllLinksPage (PlatformOptimizer.init p1))).
  change (windowOf
            (with_anchors p
               (map (fun a => mkAnchor
                       (fixLink (getContext (windowOf p)) (anchor_link a))
                       (inNav a) (classList a))
                    (pg_anchors p))))
    with (windowOf (fixAllLinksPage p)).
  assert (C3 : getContext
                 (windowOf (fixAllLinksPage (PlatformOptimizer.init p1))) =
               getContext (windowOf (fixAllLinksPage p))).
  { transitivity (getContext (windowOf (PlatformOptimizer.init p1)));
      [reflexivity |]. rewrite C2. reflexivity. }
  rewrite C3, C2, E2. cbn [pg_location pg_readyState pg_metas pg_navigations
    pg_anchors pg_domContentLoaded pg_observers].
  rewrite E1. cbn. repeat split; reflexivity.
Qed.

Lemma refresh_page (p : Page) :
  pg_location (refresh p) = pg_location p /\
  pg_metas (refresh p) = pg_metas p /\
  pg_navigations (refresh p) = pg_navigations p /\
  pg_domContentLoaded (refresh p) = pg_domContentLoaded p /\
  pg_observers (refresh p) = pg_observers p.
Proof. repeat split. Qed.

Lemma getPlatform_location (p q : Page) :
  pg_location q = pg_location p ->
  getPlatform (windowOf q) = getPlatform (windowOf p).
Proof. unfold getPlatform, windowOf. cbn. now intros ->. Qed.

Lemma quiet_callback (p q : Page) (f : Callback) :
  getPlatform (windowOf p) = Vercel \/ getPlatform (windowOf p) = Netlify ->
  quiet p q -> quiet p (runCallback q f).
Proof.
  intros H [L N]. destruct f; cbn [runCallback].
  - destruct (init_page q) as (L' & _ & _ & N' & _). split.
    + now rewrite L'.
    + rewrite N', cleanCurrentUrl_hosted; [exact N |].
      now rewrite (getPlatform_location p q L).
  - split; [exact L | exact N].
Qed.

Lemma quiet_callbacks (p : Page) (fs : list Callback) (q : Page) :
  getPlatform (windowOf p) = Vercel \/ getPlatform (windowOf p) = Netlify ->
  quiet p q -> quiet p (fold_left runCallback fs q).
Proof.
  intros H. revert q. induction fs as [|f fs IH]; intros q Q; [exact Q |].
  cbn [fold_left]. apply IH. now apply quiet_callback.
Qed.

Lemma quiet_event (p q : Page) (e : Event) :
  getPlatform (windowOf p) = Vercel \/ getPlatform (windowOf p) = Netlify ->
  quiet p q -> quiet p (handleEvent q e).
Proof.
  intros H [L N]. destruct e as [| anchors' | i]; cbn [handleEvent].
  - apply quiet_callbacks; [exact H | now split].
  - apply quiet_callbacks; [exact H | now split].
  - unfold clickPage. destruct (nth_error _ i) as [a |]; [| now split].
    destruct (existsb _ _); [| now split].
    rewrite handleClick_hosted; [now split |].
    now rewrite (getPlatform_location p q L).
Qed.

End PageFacts.

(** X16. The [meta] element that the optimizer injects never changes what
    the detector answers: base path and platform are the same after it.
    The optimizer appends exactly one element, named "platform", whose
    content is the name of the platform, and leaves anchors and
    navigations alone. *)
Theorem optimizer_keeps_detection (p : Page) :
  getContext (windowOf (PlatformOptimizer.init p)) = getContext (windowOf p) /\
  pg_metas (PlatformOptimizer.init p) =
    (pg_metas p ++
     [mkMeta "platform" (platformName (getPlatform (windowOf p)))])%list /\
  pg_anchors (PlatformOptimizer.init p) = pg_anchors p /\
  pg_navigations (PlatformOptimizer.init p) = pg_navigations p.
Proof.
  split; [apply getContext_optimizer |].
  destruct (optimizer_page p) as (lines & -> & _). repeat split.
Qed.

(** X17. [init] asks for at most one navigation, a replace, and it is the
    cleaner's.  Its work on the anchors is that of one refresh of the page
    it was given: the cleaner's answer is not used, so the links are fixed
    and highlighted also when a redirect has just been requested, and the
    injected [meta] element and the console do not affect it. *)
Theorem init_links_and_navigation (p : Page) :
  pg_anchors (init p) = pg_anchors (refresh p) /\
  pg_navigations (init p) = navigations (snd (cleanCurrentUrl (windowOf p))) /\
  (pg_navigations (init p) = pg_navigations p \/
   exists url,
     pg_navigations (init p) = (pg_navigations p ++ [Replace url])%list).
Proof.
  destruct (init_page p) as (_ & _ & _ & N & _ & _ & A).
  split; [exact A |]. split; [exact N |]. rewrite N.
  destruct (cleanCurrentUrl_cases (windowOf p)) as [-> | [url ->]].
  - now left.
  - right. now exists url.
Qed.

(** X18. On a host that the detector classifies as Vercel or Netlify the
    script never asks for a navigation: not when it starts, and not in
    any sequence of [DOMContentLoaded], mutations of the body and clicks
    on anchors that follows. *)
Theorem hosted_never_navigates (p : Page) (es : list Event) :
  getPlatform (windowOf p) = Vercel \/ getPlatform (windowOf p) = Netlify ->
  pg_navigations (runEvents (start p) es) = pg_navigations p.
Proof.
  intros H.
  assert (Q : quiet p (start p)).
  { unfold start. destruct (pg_readyState p).
    - now split.
    - apply (quiet_callback p p InitCallback H). now split.
    - apply (quiet_callback p p InitCallback H). now split. }
  unfold runEvents. revert Q. generalize (start p).
  induction es as [|e es IH]; intros q Q; [apply Q |].
  cbn [fold_left]. apply IH. now apply quiet_event.
Qed.

Lemma hosted_never_navigates_witness :
  let p := mkPage (mkLocation "meatlovers.vercel.app" "/menu.html" "" "")
                  Loading []
                  [mkAnchor (plainLink "about.html") true []] [] [] [] [] in
  pg_navigations
    (runEvents (start p) [DOMContentLoaded; Click 0; Mutation []]) = [].
Proof.
  intros p.
  apply (hosted_never_navigates p [DOMContentLoaded; Click 0; Mutation []]).
  left. reflexivity.
Defined.

Section CallbackFacts.

Lemma fire_single (q : Page) (f : Callback) :
  pg_domContentLoaded q = [f] ->
  fireDOMContentLoaded q = runCallback (with_readyState q Interactive) f.
Proof. unfold fireDOMContentLoaded. intros ->. reflexivity. Qed.

Lemma runCallback_refresh (q : Page) :
  pg_metas (runCallback q RefreshCallback) = pg_metas q /\
  pg_observers (runCallback q RefreshCallback) = pg_observers q.
Proof. split; reflexivity. Qed.

Lemma with_readyState_page (q : Page) (r : ReadyState) :
  pg_metas (with_readyState q r) = pg_metas q /\
  pg_observers (with_readyState q r) = pg_observers q /\
  windowOf (with_readyState q r) = windowOf q.
Proof. repeat split. Qed.

Lemma addDOMContentLoaded_first (p : Page) (f : Callback) :
  pg_domContentLoaded p = [] ->
  pg_domContentLoaded (addDOMContentLoaded p f) = [f] /\
  pg_metas (addDOMContentLoaded p f) = pg_metas p /\
  pg_observers (addDOMContentLoaded p f) = pg_observers p /\
  windowOf (addDOMContentLoaded p f) = windowOf p.
Proof.
  intros H. unfold addDOMContentLoaded, windowOf.
  cbn [pg_domContentLoaded pg_metas pg_observers pg_location pg_anchors
       pg_navigations]. rewrite H. repeat split.
Qed.

(** Once [init] has run on a page, its platform tag is there and the
    observers have one more. *)
Lemma init_tag (q : Page) :
  pg_metas (init q) =
    (pg_metas q ++
     [mkMeta "platform" (platformName (getPlatform (windowOf q)))])%list /\
  pg_domContentLoaded (init q) =
    (pg_domContentLoaded q ++ [RefreshCallback])%list /\
  pg_observers (init q) = (pg_observers q ++ [RefreshCallback])%list.
Proof. destruct (init_page q) as (_ & _ & M & _ & D & O & _). auto. Qed.

End CallbackFacts.

(** X19. Whatever the ready state at which the script starts on a page
    without callbacks, once [DOMContentLoaded] has been dispatched (or at
    once, when the document was complete) [init] has run exactly once:
    the page has one more [meta] element, the platform tag, and one
    observer of the body. *)
Theorem script_runs_init_once (p : Page) :
  pg_domContentLoaded p = [] ->
  pg_observers p = [] ->
  let p' := match pg_readyState p with
            | Complete => start p
            | _ => fireDOMContentLoaded (start p)
            end in
  pg_metas p' =
    (pg_metas p ++
     [mkMeta "platform" (platformName (getPlatform (windowOf p)))])%list /\
  pg_observers p' = [RefreshCallback].
Proof.
  intros Hd Ho. cbv zeta. unfold start.
  destruct (pg_readyState p).
  - destruct (addDOMContentLoaded_first p InitCallback Hd)
      as (E & M0 & O0 & W0).
    rewrite (fire_single _ InitCallback E).
    change (runCallback ?q InitCallback) with (init q).
    destruct (init_tag (with_readyState (addDOMContentLoaded p InitCallback)
                                        Interactive)) as (-> & _ & ->).
    destruct (with_readyState_page (addDOMContentLoaded p InitCallback)
                                   Interactive) as (-> & -> & ->).
    rewrite M0, O0, W0, Ho. split; reflexivity.
  - destruct (init_tag p) as (M & D & O).
    rewrite Hd in D. rewrite Ho in O. cbn [app] in D, O.
    rewrite (fire_single (init p) RefreshCallback D).
    destruct (runCallback_refresh (with_readyState (init p) Interactive))
      as [-> ->].
    destruct (with_readyState_page (init p) Interactive) as (-> & -> & _).
    rewrite M, O. split; reflexivity.
  - destruct (init_tag p) as (M & _ & O).
    rewrite M, O, Ho. split; reflexivity.
Qed.

Lemma script_runs_init_once_witness :
  let p := mkPage (mkLocation "localhost" "/Shop/menu" "" "") Interactive
                  [mkMeta "viewport" "width=device-width"]
                  [mkAnchor (plainLink "/about.html") true []] [] [] [] [] in
  let p' := match pg_readyState p with
            | Complete => start p
            | _ => fireDOMContentLoaded (start p)
            end in
  pg_metas p' =
    (pg_metas p ++
     [mkMeta "platform" (platformName (getPlatform (windowOf p)))])%list /\
  pg_observers p' = [RefreshCallback].
Proof.
  intros p. exact (script_runs_init_once p eq_refl eq_refl).
Defined.
